(** * MediaWiki MCP server: session client and tool dispatcher

    A shallow embedding of [src/index.ts]: the class [MediaWikiClient] and
    the handler registered for [CallToolRequestSchema].  (The second
    variant of the file carries the same class and handler, reformatted.)

    Modelling conventions.
    - JavaScript values that travel as JSON are the inductive [Value],
      with NaN added (no JSON text denotes it, [Math.min] can yield it).
      Numbers are integers ([Z]); [String] and [JSON.stringify] print
      them in plain decimal, as the engine does for the safe integers
      (below 2^53 in absolute value), and a theorem about the text of a
      number argument states that range.  Objects are association lists
      in insertion order, their keys pairwise distinct.
    - Tool arguments are read through the casts of the handler: a field is
      absent or has the type its cast declares ([Arguments]).
    - [async] methods run to completion one after the other.  Each is a
      computation in the monad [M], which threads the client object and
      the list of requests handed to [fetch] and may end in a thrown
      exception; what was mutated before a [throw] stays mutated.
    - The remote wiki is a function [Remote] from the requests seen so far
      and the current request to the outcome of [fetch].  [apiUrl] is a
      URL that [new URL(..)] accepts.
    - Messages of engine-made exceptions follow V8. *)

From Stdlib Require Import ZArith List String Ascii Bool Lia DecimalString.
Import ListNotations.
Open Scope string_scope.
Open Scope Z_scope.

Set Implicit Arguments.
#[local] Set Warnings "-register-all".

(** ** Values *)

Inductive Value : Type :=
| VUndef
| VNull
| VBool (b : bool)
| VNum (z : Z)
| VNaN
| VStr (s : string)
| VArr (items : list Value)
| VObj (props : list (string * Value)).

(** Exceptions.  The source throws [new Error(msg)] only; the engine adds
    [TypeError] for a property read on [undefined] or [null] and for a
    call of a non-function, and the transport adds its own failures
    ([fetch] rejecting, [response.json()] rejecting).  All of them are
    instances of [Error] and carry a message. *)
Inductive exn : Type :=
| Error (msg : string)
| TypeError (msg : string)
| FetchError (msg : string)
| SyntaxError (msg : string).

Definition message (e : exn) : string :=
  match e with
  | Error m | TypeError m | FetchError m | SyntaxError m => m
  end.

Definition Result (A : Type) : Type := (exn + A)%type.

(** [String(z)] for an integer valued number: plain decimal, which is
    what the engine prints for a safe integer (beyond 2^53 a number is
    rounded, and from 1e21 on it is printed with an exponent). *)
Definition string_of_Z (z : Z) : string := NilZero.string_of_int (Z.to_int z).

Fixpoint join (sep : string) (l : list string) : string :=
  match l with
  | [] => ""
  | [x] => x
  | x :: rest => x ++ sep ++ join sep rest
  end.

(** [String(v)], as used by template literals and by the parameter
    encoding of [makeApiCall]. *)
Fixpoint ToString (v : Value) : string :=
  match v with
  | VUndef => "undefined"
  | VNull => "null"
  | VBool true => "true"
  | VBool false => "false"
  | VNum z => string_of_Z z
  | VNaN => "NaN"
  | VStr s => s
  | VArr items =>
      join "," (map (fun x => match x with
                              | VUndef | VNull => ""
                              | _ => ToString x
                              end) items)
  | VObj _ => "[object Object]"
  end.

(** Truthiness, as tested by [if (x)] and [!x]. *)
Definition truthy (v : Value) : bool :=
  match v with
  | VUndef | VNull | VNaN => false
  | VBool b => b
  | VNum z => negb (z =? 0)
  | VStr s => negb (s =? "")%string
  | VArr _ | VObj _ => true
  end.

(** An optional string such as [username?: string] or the result of
    [headers.get(..)], seen as a value. *)
Definition of_opt (o : option string) : Value :=
  match o with
  | Some s => VStr s
  | None => VUndef
  end.

Definition of_opt_num (o : option Z) : Value :=
  match o with
  | Some z => VNum z
  | None => VUndef
  end.

(** ** Property access *)

Fixpoint assoc (k : string) (l : list (string * Value)) : option Value :=
  match l with
  | [] => None
  | (k', v) :: rest => if (k' =? k)%string then Some v else assoc k rest
  end.

Definition cannot_read (of_what key : string) : exn :=
  TypeError ("Cannot read properties of " ++ of_what
             ++ " (reading '" ++ key ++ "')").

(** The own property [key] of [v], [undefined] when there is none.
    Primitives and arrays have no own property under the names the source
    reads; members inherited from a prototype (such as [search] on a
    string) are not modelled. *)
Definition prop (v : Value) (key : string) : Value :=
  match v with
  | VObj props =>
      match assoc key props with
      | Some x => x
      | None => VUndef
      end
  | _ => VUndef
  end.

(** [v.key]: a read on [undefined] or [null] throws. *)
Definition get (v : Value) (key : string) : Result Value :=
  match v with
  | VUndef => inl (cannot_read "undefined" key)
  | VNull => inl (cannot_read "null" key)
  | _ => inr (prop v key)
  end.

(** [v[0]]. *)
Definition get0 (v : Value) : Result Value :=
  match v with
  | VUndef => inl (cannot_read "undefined" "0")
  | VNull => inl (cannot_read "null" "0")
  | VArr (x :: _) => inr x
  | VStr (String c _) => inr (VStr (String c ""))
  | _ => inr (prop v "0")
  end.

(** [obj.key = v]: an existing key keeps its place, a new key goes last. *)
Fixpoint set_prop (key : string) (v : Value) (l : list (string * Value))
  : list (string * Value) :=
  match l with
  | [] => [(key, v)]
  | (k', v') :: rest =>
      if (k' =? key)%string then (k', v) :: rest
      else (k', v') :: set_prop key v rest
  end.

(** ** [JSON.stringify(v, null, 2)] *)

Definition hex_digit (n : nat) : ascii :=
  nth n (list_ascii_of_string "0123456789abcdef") "0"%char.

Definition dquote : string := String (ascii_of_nat 34) EmptyString.
Definition newline : string := String (ascii_of_nat 10) EmptyString.

Definition escape_char (c : ascii) : string :=
  let n := nat_of_ascii c in
  if Nat.eqb n 34 then "\" ++ dquote
  else if Nat.eqb n 92 then "\\"
  else if Nat.eqb n 8 then "\b"
  else if Nat.eqb n 12 then "\f"
  else if Nat.eqb n 10 then "\n"
  else if Nat.eqb n 13 then "\r"
  else if Nat.eqb n 9 then "\t"
  else if Nat.ltb n 32 then
    "\u00" ++ String (hex_digit (Nat.div n 16))
                (String (hex_digit (Nat.modulo n 16)) "")
  else String c "".

Fixpoint quote_body (s : string) : string :=
  match s with
  | EmptyString => ""
  | String c rest => escape_char c ++ quote_body rest
  end.

Definition quote (s : string) : string := dquote ++ quote_body s ++ dquote.

Fixpoint spaces (n : nat) : string :=
  match n with
  | O => ""
  | S k => " " ++ spaces k
  end.

(** [stringify ind v] is the text of [v] when the enclosing indentation is
    [ind] spaces; [None] stands for [undefined] (the value is left out of
    an object and written [null] in an array). *)
Fixpoint stringify (ind : nat) (v : Value) : option string :=
  match v with
  | VUndef => None
  | VNull => Some "null"
  | VBool true => Some "true"
  | VBool false => Some "false"
  | VNum z => Some (string_of_Z z)
  | VNaN => Some "null"
  | VStr s => Some (quote s)
  | VArr items =>
      let inner := (ind + 2)%nat in
      let parts :=
        (fix go (l : list Value) : list string :=
           match l with
           | [] => []
           | x :: rest =>
               (spaces inner ++
                match stringify inner x with
                | Some t => t
                | None => "null"
                end) :: go rest
           end) items in
      match parts with
      | [] => Some "[]"
      | _ => Some ("[" ++ newline ++ join ("," ++ newline) parts
                   ++ newline ++ spaces ind ++ "]")
      end
  | VObj props =>
      let inner := (ind + 2)%nat in
      let parts :=
        (fix go (l : list (string * Value)) : list string :=
           match l with
           | [] => []
           | (k, x) :: rest =>
               match stringify inner x with
               | Some t => (spaces inner ++ quote k ++ ": " ++ t) :: go rest
               | None => go rest
               end
           end) props in
      match parts with
      | [] => Some "{}"
      | _ => Some ("{" ++ newline ++ join ("," ++ newline) parts
                   ++ newline ++ spaces ind ++ "}")
      end
  end.

(** The source stringifies object literals only, so the result is a
    string. *)
Definition JSON_stringify (v : Value) : string :=
  match stringify 0 v with
  | Some t => t
  | None => "undefined"
  end.


(** [v === s] for a string literal [s]. *)
Definition is_str (v : Value) (s : string) : bool :=
  match v with
  | VStr t => (t =? s)%string
  | _ => false
  end.

Fixpoint map_result (f : Value -> Result Value) (l : list Value)
  : Result (list Value) :=
  match l with
  | [] => inr []
  | x :: rest =>
      match f x with
      | inl e => inl e
      | inr y =>
          match map_result f rest with
          | inl e => inl e
          | inr ys => inr (y :: ys)
          end
      end
  end.

(** [v.map(f)], where [expr] is the source text of the receiver (the
    engine quotes it when the receiver has no [map]). *)
Definition js_map (expr : string) (f : Value -> Result Value) (v : Value)
  : Result (list Value) :=
  match v with
  | VUndef => inl (cannot_read "undefined" "map")
  | VNull => inl (cannot_read "null" "map")
  | VArr items => map_result f items
  | _ => inl (TypeError (expr ++ ".map is not a function"))
  end.

(** ** The wire *)

Inductive Method : Type := GET | POST.

(** What [fetch] is given.  [req_params] is the query string appended to
    the URL for a GET and the form body for a POST. *)
Record Request : Type := mkRequest {
  req_method : Method;
  req_url : string;
  req_headers : list (string * string);
  req_params : list (string * string)
}.

(** What [fetch] resolves to: the [Set-Cookie] header as
    [headers.get('Set-Cookie')] reports it ([None] for [null]) and the
    outcome of [response.json()]. *)
Record Response : Type := mkResponse {
  set_cookie : option string;
  json : Result Value
}.

Definition Remote : Type := list Request -> Request -> Result Response.

(** ** The client object and the monad of its methods *)

Record MediaWikiClient : Type := mkClient {
  apiUrl : string;
  username : option string;
  password : option string;
  loggedIn : bool;
  editToken : Value;
  cookies : list string
}.

(** [new MediaWikiClient(apiUrl, username, password)]. *)
Definition new_client (url : string) (u p : option string) : MediaWikiClient :=
  mkClient url u p false VUndef [].

Record World : Type := mkWorld {
  client : MediaWikiClient;
  sent : list Request
}.

Definition M (A : Type) : Type := World -> Result A * World.

Definition ret {A} (a : A) : M A := fun w => (inr a, w).

Definition throw {A} (e : exn) : M A := fun w => (inl e, w).

Definition bind {A B} (m : M A) (k : A -> M B) : M B :=
  fun w =>
    match m w with
    | (inl e, w') => (inl e, w')
    | (inr a, w') => k a w'
    end.

Definition lift {A} (r : Result A) : M A := fun w => (r, w).

Definition this : M MediaWikiClient := fun w => (inr (client w), w).

Definition update (f : MediaWikiClient -> MediaWikiClient) : M unit :=
  fun w => (inr tt, mkWorld (f (client w)) (sent w)).

Declare Scope js_scope.
Delimit Scope js_scope with js.
Notation "x <- m ;; k" := (bind m (fun x => k))
  (at level 61, m at next level, right associativity) : js_scope.
Notation "m ;;; k" := (bind m (fun _ => k))
  (at level 61, right associativity) : js_scope.
Notation "v @ key" := (lift (get v key)) (at level 30) : js_scope.
Open Scope js_scope.

Definition push_cookie (s : string) (c : MediaWikiClient) : MediaWikiClient :=
  mkClient (apiUrl c) (username c) (password c) (loggedIn c) (editToken c)
           (cookies c ++ [s]).

(** [if (setCookieHeader) this.cookies.push(setCookieHeader)]. *)
Definition save_cookie (response : Response) (c : MediaWikiClient)
  : MediaWikiClient :=
  match set_cookie response with
  | Some setCookieHeader =>
      if truthy (VStr setCookieHeader) then push_cookie setCookieHeader c
      else c
  | None => c
  end.

Definition set_loggedIn (b : bool) (c : MediaWikiClient) : MediaWikiClient :=
  mkClient (apiUrl c) (username c) (password c) b (editToken c) (cookies c).

Definition set_editToken (t : Value) (c : MediaWikiClient) : MediaWikiClient :=
  mkClient (apiUrl c) (username c) (password c) (loggedIn c) t (cookies c).

(** [Object.entries(params).forEach(..)]: every entry whose value is not
    [undefined] is appended as [key, String(value)]. *)
Fixpoint encode (params : list (string * Value)) : list (string * string) :=
  match params with
  | [] => []
  | (k, VUndef) :: rest => encode rest
  | (k, v) :: rest => (k, ToString v) :: encode rest
  end.

Definition base_headers (c : MediaWikiClient) : list (string * string) :=
  ("User-Agent", "MediaWiki-MCP-Server/1.0")
  :: match cookies c with
     | [] => []
     | _ => [("Cookie", join "; " (cookies c))]
     end.

Definition build_request (c : MediaWikiClient)
  (params : list (string * Value)) (method : Method) : Request :=
  let params :=
    set_prop "formatversion" (VStr "2") (set_prop "format" (VStr "json") params) in
  match method with
  | GET => mkRequest GET (apiUrl c) (base_headers c) (encode params)
  | POST =>
      mkRequest POST (apiUrl c)
        (base_headers c
         ++ [("Content-Type", "application/x-www-form-urlencoded")])
        (encode params)
  end.

Definition api_error (err : Value) : Result string :=
  match get err "code", get err "info" with
  | inr code, inr info =>
      inr ("MediaWiki API error: " ++ ToString code ++ " - " ++ ToString info)
  | inl e, _ | _, inl e => inl e
  end.

(** A default value, as in [limit: number = 10] and [{ limit = 10 }]: it
    stands in for [undefined] only. *)
Definition default {A} (d : A) (o : option A) : A :=
  match o with
  | Some a => a
  | None => d
  end.

Section Client.

Variable remote : Remote.

(** [await fetch(..)]: the request is recorded and the remote answers. *)
Definition fetch (req : Request) : M Response :=
  fun w => (remote (sent w) req, mkWorld (client w) (sent w ++ [req])).

Definition makeApiCall (params : list (string * Value)) (method : Method)
  : M Value :=
  c <- this ;;
  response <- fetch (build_request c params method) ;;
  update (save_cookie response) ;;;
  data <- lift (json response) ;;
  err <- data @ "error" ;;
  if truthy err then
    msg <- lift (api_error err) ;;
    throw (Error msg)
  else ret data.

Definition login : M bool :=
  c <- this ;;
  if negb (truthy (of_opt (username c))) || negb (truthy (of_opt (password c)))
  then ret false
  else if loggedIn c then ret true
  else
    tokenResponse <-
      makeApiCall [("action", VStr "query"); ("meta", VStr "tokens");
                   ("type", VStr "login")] GET ;;
    query <- tokenResponse @ "query" ;;
    tokens <- query @ "tokens" ;;
    loginToken <- tokens @ "logintoken" ;;
    loginResponse <-
      makeApiCall [("action", VStr "login");
                   ("lgname", of_opt (username c));
                   ("lgpassword", of_opt (password c));
                   ("lgtoken", loginToken)] POST ;;
    lg <- loginResponse @ "login" ;;
    result <- lg @ "result" ;;
    if is_str result "Success" then
      update (set_loggedIn true) ;;;
      ret true
    else
      reason <- lg @ "reason" ;;
      throw (Error ("Login failed: " ++ ToString reason)).

Definition getEditToken : M Value :=
  c <- this ;;
  (if negb (truthy (editToken c)) then
     tokenResponse <-
       makeApiCall [("action", VStr "query"); ("meta", VStr "tokens")] GET ;;
     query <- tokenResponse @ "query" ;;
     tokens <- query @ "tokens" ;;
     csrftoken <- tokens @ "csrftoken" ;;
     update (set_editToken csrftoken)
   else ret tt) ;;;
  c' <- this ;;
  ret (editToken c').

Definition searchPages (query : option string) (limit : option Z) : M Value :=
  let limit := default 10 limit in
  makeApiCall [("action", VStr "query"); ("list", VStr "search");
               ("srsearch", of_opt query); ("srlimit", VNum limit);
               ("srinfo", VStr "totalhits");
               ("srprop", VStr "size|wordcount|timestamp|snippet")] GET.

Definition getPage (title : option string) : M Value :=
  makeApiCall [("action", VStr "query"); ("prop", VStr "revisions");
               ("titles", of_opt title);
               ("rvprop", VStr "content|timestamp|user|comment");
               ("rvslots", VStr "main")] GET.

Definition createPage (title content summary : option string) : M Value :=
  let summary := default "" summary in
  token <- getEditToken ;;
  makeApiCall [("action", VStr "edit"); ("title", of_opt title);
               ("text", of_opt content); ("summary", VStr summary);
               ("token", token); ("createonly", VBool true)] POST.

Definition updatePage (title content summary : option string) : M Value :=
  let summary := default "" summary in
  token <- getEditToken ;;
  makeApiCall [("action", VStr "edit"); ("title", of_opt title);
               ("text", of_opt content); ("summary", VStr summary);
               ("token", token)] POST.

Definition getPageHistory (title : option string) (limit : option Z)
  : M Value :=
  let limit := default 10 limit in
  makeApiCall [("action", VStr "query"); ("prop", VStr "revisions");
               ("titles", of_opt title);
               ("rvprop", VStr "timestamp|user|comment|ids");
               ("rvlimit", VNum limit)] GET.

Definition getCategories (title : option string) : M Value :=
  makeApiCall [("action", VStr "query"); ("prop", VStr "categories");
               ("titles", of_opt title); ("cllimit", VStr "max")] GET.

End Client.

(** ** The tool dispatcher *)

(** [request.params.arguments], read through the casts of the handler:
    each field is absent or has the type its cast declares.  The casts
    check nothing at run time; [search_pages_any] below takes the [limit]
    argument as it arrives. *)
Record Arguments : Type := mkArguments {
  arg_query : option string;
  arg_limit : option Z;
  arg_title : option string;
  arg_content : option string;
  arg_summary : option string
}.

Record CallToolRequest : Type := mkCall {
  name : string;
  arguments : option Arguments
}.

Inductive Content : Type :=
| TextContent (text : string).

(** [isError] is [None] where the returned object has no such field. *)
Record CallToolResult : Type := mkResult {
  content : list Content;
  isError : option bool
}.

(** [{ content: [{ type: "text", text: JSON.stringify(v, null, 2) }] }]. *)
Definition json_result (v : Value) : CallToolResult :=
  mkResult [TextContent (JSON_stringify v)] None.

(** The result built by the [catch] clause. *)
Definition error_result (e : exn) : CallToolResult :=
  mkResult [TextContent ("Error: " ++ message e)] (Some true).

Definition missing_page (page : Value) : Result CallToolResult :=
  match get page "title" with
  | inl e => inl e
  | inr title =>
      inr (json_result (VObj [("title", title); ("exists", VBool false);
                              ("message", VStr "Page does not exist")]))
  end.

(** The callbacks handed to [map]. *)
Definition search_entry (page : Value) : Result Value :=
  match get page "title", get page "snippet", get page "size",
        get page "wordcount", get page "timestamp" with
  | inr title, inr snippet, inr size, inr wordcount, inr timestamp =>
      inr (VObj [("title", title); ("snippet", snippet); ("size", size);
                 ("wordCount", wordcount); ("timestamp", timestamp)])
  | inl e, _, _, _, _ | _, inl e, _, _, _ | _, _, inl e, _, _
  | _, _, _, inl e, _ | _, _, _, _, inl e => inl e
  end.

Definition history_entry (rev : Value) : Result Value :=
  match get rev "revid", get rev "timestamp", get rev "user",
        get rev "comment" with
  | inr revid, inr timestamp, inr user, inr comment =>
      inr (VObj [("id", revid); ("timestamp", timestamp); ("user", user);
                 ("comment", comment)])
  | inl e, _, _, _ | _, inl e, _, _ | _, _, inl e, _ | _, _, _, inl e => inl e
  end.

Definition category_entry (cat : Value) : Result Value := get cat "title".

Definition edit_result (title : option string) (result : Value)
  : Result CallToolResult :=
  match get result "edit" with
  | inl e => inl e
  | inr edit =>
      match get edit "result", get edit "newrevid" with
      | inr r, inr newrevid =>
          inr (json_result
                 (VObj [("title", of_opt title); ("result", r);
                        ("newRevId", newrevid);
                        ("success", VBool (is_str r "Success"))]))
      | inl e, _ | _, inl e => inl e
      end
  end.

Section Dispatcher.

Variable remote : Remote.

Definition first_page (result : Value) : M Value :=
  query <- result @ "query" ;;
  pages <- query @ "pages" ;;
  lift (get0 pages).

Definition search_pages (args : Arguments) : M CallToolResult :=
  let query := arg_query args in
  let limit := default 10 (arg_limit args) in
  result <- searchPages remote query (Some (Z.min limit 50)) ;;
  q <- result @ "query" ;;
  search <- q @ "search" ;;
  pages <- lift (js_map "result.query.search" search_entry search) ;;
  q' <- result @ "query" ;;
  searchinfo <- q' @ "searchinfo" ;;
  totalhits <- searchinfo @ "totalhits" ;;
  ret (json_result (VObj [("totalHits", totalhits); ("pages", VArr pages)])).

Definition read_page (args : Arguments) : M CallToolResult :=
  let title := arg_title args in
  result <- getPage remote title ;;
  page <- first_page result ;;
  missing <- page @ "missing" ;;
  if truthy missing then lift (missing_page page)
  else
    revisions <- page @ "revisions" ;;
    revision <- lift (get0 revisions) ;;
    slots <- revision @ "slots" ;;
    main <- slots @ "main" ;;
    content <- main @ "content" ;;
    ptitle <- page @ "title" ;;
    timestamp <- revision @ "timestamp" ;;
    user <- revision @ "user" ;;
    comment <- revision @ "comment" ;;
    ret (json_result
           (VObj [("title", ptitle); ("content", content);
                  ("lastEdit",
                   VObj [("timestamp", timestamp); ("user", user);
                         ("comment", comment)])])).

Definition create_page (args : Arguments) : M CallToolResult :=
  let title := arg_title args in
  let content := arg_content args in
  let summary := default "Created via MCP" (arg_summary args) in
  result <- createPage remote title content (Some summary) ;;
  lift (edit_result title result).

Definition update_page (args : Arguments) : M CallToolResult :=
  let title := arg_title args in
  let content := arg_content args in
  let summary := default "Updated via MCP" (arg_summary args) in
  result <- updatePage remote title content (Some summary) ;;
  lift (edit_result title result).

Definition get_page_history (args : Arguments) : M CallToolResult :=
  let title := arg_title args in
  let limit := default 10 (arg_limit args) in
  result <- getPageHistory remote title (Some limit) ;;
  page <- first_page result ;;
  missing <- page @ "missing" ;;
  if truthy missing then lift (missing_page page)
  else
    revs <- page @ "revisions" ;;
    revisions <- lift (js_map "page.revisions" history_entry revs) ;;
    ptitle <- page @ "title" ;;
    ret (json_result
           (VObj [("title", ptitle); ("revisions", VArr revisions)])).

Definition get_categories (args : Arguments) : M CallToolResult :=
  let title := arg_title args in
  result <- getCategories remote title ;;
  page <- first_page result ;;
  missing <- page @ "missing" ;;
  if truthy missing then lift (missing_page page)
  else
    cats <- page @ "categories" ;;
    categories <-
      (if truthy cats
       then lift (js_map "page.categories" category_entry cats)
       else ret []) ;;
    ptitle <- page @ "title" ;;
    ret (json_result
           (VObj [("title", ptitle); ("categories", VArr categories)])).

(** The [switch] on [request.params.name]. *)
Definition dispatch (tool : string) (args : Arguments) : M CallToolResult :=
  if (tool =? "search_pages")%string then search_pages args
  else if (tool =? "read_page")%string then read_page args
  else if (tool =? "create_page")%string then create_page args
  else if (tool =? "update_page")%string then update_page args
  else if (tool =? "get_page_history")%string then get_page_history args
  else if (tool =? "get_categories")%string then get_categories args
  else throw (Error ("Unknown tool: " ++ tool)).

(** The body of the [try] block. *)
Definition handle (request : CallToolRequest) : M CallToolResult :=
  match arguments request with
  | None => throw (Error "Arguments are required")
  | Some args =>
      (if negb (name request =? "search_pages")%string
          && negb (name request =? "read_page")%string
       then login remote ;;; ret tt
       else ret tt) ;;;
      dispatch (name request) args
  end.

(** The handler registered for [CallToolRequestSchema]: [try] the body,
    [catch] whatever it throws. *)
Definition callTool (request : CallToolRequest) (w : World)
  : CallToolResult * World :=
  match handle request w with
  | (inr result, w') => (result, w')
  | (inl error, w') => (error_result error, w')
  end.

End Dispatcher.

(** ** Process bootstrap *)

(** [process.env]: a variable is unset or has a string value. *)
Definition Env : Type := string -> option string.

(** [a || b] on optional strings: [a] when it is truthy, else [b]. *)
Definition or_else (a b : option string) : option string :=
  if truthy (of_opt a) then a else b.

(** How the process comes up: it exits with a status and a line on
    stderr, or it builds the client. *)
Inductive Boot : Type :=
| Exit (status : Z) (stderr : string)
| Started (wikiClient : MediaWikiClient).

(** The values [parseArgs] hands back for [--api-url], [--username] and
    [--password]. *)
Record Values : Type := mkValues {
  flag_api_url : option string;
  flag_username : option string;
  flag_password : option string
}.

(** The top level of [index.ts] from the point where [parseArgs] has
    returned its values up to [new MediaWikiClient(..)]. *)
Definition start (values : Values) (env : Env) : Boot :=
  let API_URL := or_else (flag_api_url values) (env "MEDIAWIKI_API_URL") in
  let USERNAME := or_else (flag_username values) (env "MEDIAWIKI_USERNAME") in
  let PASSWORD := or_else (flag_password values) (env "MEDIAWIKI_PASSWORD") in
  match API_URL with
  | Some url =>
      if truthy (VStr url) then Started (new_client url USERNAME PASSWORD)
      else Exit 1 "MediaWiki API URL is required. Set it via --api-url or MEDIAWIKI_API_URL"
  | None =>
      Exit 1 "MediaWiki API URL is required. Set it via --api-url or MEDIAWIKI_API_URL"
  end.

(** [wikiClient.login().then(..).catch(..).finally(runServer)]: the
    server runs in the state the first [login()] leaves, whether it
    returned or threw. *)
Definition startup (remote : Remote) (c : MediaWikiClient) : World :=
  snd (login remote (mkWorld c [])).

(** The variant of the server that reads its configuration from the
    environment.  Its HTTP listener is not modelled. *)
Module Server.

(** A number setting: a literal default, or [Number(s)] for the text [s]
    of a variable. *)
Inductive Num : Type :=
| Lit (z : Z)
| Number (s : string).

Record Config : Type := mkConfig {
  apiUrl : string;
  username : string;
  password : string;
  port : Num;
  logLevel : string;
  authTokenExpiry : Num;
  retryAttempts : Num;
  rateLimitWindow : Num;
  rateLimitMaxRequests : Num;
  cacheEnabled : bool;
  cacheTTL : Num;
  allowedOrigins : string;
  sslEnabled : bool;
  sslKeyPath : option string;
  sslCertPath : option string
}.

Definition getRequiredEnv (env : Env) (name : string) : Result string :=
  match env name with
  | Some value =>
      if truthy (VStr value) then inr value
      else inl (Error ("Required environment variable " ++ name
                       ++ " is not set"))
  | None =>
      inl (Error ("Required environment variable " ++ name ++ " is not set"))
  end.

(** [transform ? transform(value) : value]: a call without [transform]
    passes the identity (the cast does nothing at run time). *)
Definition getOptionalEnv {T} (env : Env) (name : string) (defaultValue : T)
  (transform : string -> T) : T :=
  match env name with
  | Some value => if truthy (VStr value) then transform value else defaultValue
  | None => defaultValue
  end.

(** [v.toLowerCase()] on the letters A to Z; no other character has a
    lower case among the letters of "true". *)
Definition lower (c : ascii) : ascii :=
  let n := nat_of_ascii c in
  if Nat.leb 65 n && Nat.leb n 90 then ascii_of_nat (n + 32) else c.

Fixpoint toLowerCase (s : string) : string :=
  match s with
  | EmptyString => EmptyString
  | String c rest => String (lower c) (toLowerCase rest)
  end.

(** [(v) => v.toLowerCase() === "true"]. *)
Definition is_true (v : string) : bool := (toLowerCase v =? "true")%string.

Definition config (env : Env) : Result Config :=
  match getRequiredEnv env "MEDIAWIKI_API_URL" with
  | inl e => inl e
  | inr apiUrl =>
      match getRequiredEnv env "MEDIAWIKI_USERNAME" with
      | inl e => inl e
      | inr username =>
          match getRequiredEnv env "MEDIAWIKI_PASSWORD" with
          | inl e => inl e
          | inr password =>
              inr (mkConfig apiUrl username password
                     (getOptionalEnv env "PORT" (Lit 3000) Number)
                     (getOptionalEnv env "LOG_LEVEL" "info" (fun v => v))
                     (getOptionalEnv env "AUTH_TOKEN_EXPIRY" (Lit 3600) Number)
                     (getOptionalEnv env "RETRY_ATTEMPTS" (Lit 3) Number)
                     (getOptionalEnv env "RATE_LIMIT_WINDOW" (Lit 900) Number)
                     (getOptionalEnv env "RATE_LIMIT_MAX_REQUESTS" (Lit 100)
                        Number)
                     (getOptionalEnv env "CACHE_ENABLED" true is_true)
                     (getOptionalEnv env "CACHE_TTL" (Lit 300) Number)
                     (getOptionalEnv env "ALLOWED_ORIGINS" "*" (fun v => v))
                     (getOptionalEnv env "SSL_ENABLED" false is_true)
                     (env "SSL_KEY_PATH")
                     (env "SSL_CERT_PATH"))
          end
      end
  end.

(** The check that follows [config].  [access p] says whether
    [fs.accessSync(path.resolve(p))] returns. *)
Definition validate_ssl (access : string -> bool) (c : Config) : Result unit :=
  if sslEnabled c then
    match sslKeyPath c, sslCertPath c with
    | Some key, Some cert =>
        if negb (truthy (VStr key)) || negb (truthy (VStr cert)) then
          inl (Error "SSL is enabled but SSL_KEY_PATH or SSL_CERT_PATH is not set")
        else if access key && access cert then inr tt
        else inl (Error "SSL key or certificate file not found")
    | _, _ =>
        inl (Error "SSL is enabled but SSL_KEY_PATH or SSL_CERT_PATH is not set")
    end
  else inr tt.

(** The test that picks [https.createServer] over [http.createServer]. *)
Definition uses_https (c : Config) : bool :=
  sslEnabled c && truthy (of_opt (sslKeyPath c))
  && truthy (of_opt (sslCertPath c)).

(** What [yargs] hands back: [apiUrl] is the flag or its default. *)
Record Argv : Type := mkArgv {
  argv_apiUrl : string;
  argv_username : option string;
  argv_password : option string
}.

Definition default_api_url : string :=
  "https://wizzypedia.forgottenrunes.com/api.php".

Definition parse (api_url user pass : option string) : Argv :=
  mkArgv (default default_api_url api_url) user pass.

(** The top level of the variant up to [new MediaWikiClient(..)]: the
    configuration is read and checked first, and a throw there ends the
    process. *)
Definition start (access : string -> bool) (argv : Argv) (env : Env)
  : Result Boot :=
  match config env with
  | inl e => inl e
  | inr c =>
      match validate_ssl access c with
      | inl e => inl e
      | inr _ =>
          let API_URL :=
            or_else (Some (argv_apiUrl argv)) (env "MEDIAWIKI_API_URL") in
          let USERNAME :=
            or_else (argv_username argv) (env "MEDIAWIKI_USERNAME") in
          let PASSWORD :=
            or_else (argv_password argv) (env "MEDIAWIKI_PASSWORD") in
          match API_URL with
          | Some url =>
              if truthy (VStr url)
              then inr (Started (new_client url USERNAME PASSWORD))
              else inr (Exit 1 "MediaWiki API URL is required. Set it via --api-url or MEDIAWIKI_API_URL")
          | None =>
              inr (Exit 1 "MediaWiki API URL is required. Set it via --api-url or MEDIAWIKI_API_URL")
          end
      end
  end.

End Server.

(** ** Sample data *)

(** The first value stored under [k], as [URLSearchParams.get] and
    [Headers.get] report it. *)
Definition lookup (k : string) (l : list (string * string)) : option string :=
  match find (fun p => (fst p =? k)%string) l with
  | Some p => Some (snd p)
  | None => None
  end.

Definition ok (sc : option string) (body : Value) : Result Response :=
  inr (mkResponse sc (inr body)).

Definition sample_page : Value :=
  VObj [("pageid", VNum 7); ("title", VStr "Dotta");
        ("revisions",
         VArr [VObj [("user", VStr "Alice");
                     ("timestamp", VStr "2024-01-01T00:00:00Z");
                     ("comment", VStr "init");
                     ("slots",
                      VObj [("main", VObj [("content", VStr "Hello")])])]])].

Definition has (k v : string) (p : list (string * string)) : bool :=
  match lookup k p with
  | Some x => (x =? v)%string
  | None => false
  end.

(** A small wiki: it answers from the [action], [meta], [type], [list] and
    [titles] parameters, sets a cookie on both login steps, accepts user
    [Alice] with password [secret], and holds the one page [Dotta]. *)
Definition sample_remote : Remote := fun history req =>
  let p := req_params req in
  if has "action" "query" p && has "meta" "tokens" p then
    if has "type" "login" p then
      ok (Some "session=s1")
         (VObj [("query", VObj [("tokens", VObj [("logintoken", VStr "LT+\")])])])
    else
      ok None
         (VObj [("query", VObj [("tokens", VObj [("csrftoken", VStr "CSRF+\")])])])
  else if has "action" "login" p then
    if has "lgname" "Alice" p && has "lgpassword" "secret" p
       && has "lgtoken" "LT+\" p
    then
      ok (Some "user=Alice")
         (VObj [("login", VObj [("result", VStr "Success");
                                ("lgusername", VStr "Alice")])])
    else
      ok None
         (VObj [("login", VObj [("result", VStr "Failed");
                                ("reason", VStr "Incorrect password")])])
  else if has "action" "edit" p then
    if has "token" "CSRF+\" p then
      ok None
         (VObj [("edit", VObj [("result", VStr "Success");
                               ("newrevid", VNum 42)])])
    else
      ok None
         (VObj [("error", VObj [("code", VStr "badtoken");
                                ("info", VStr "Invalid CSRF token.")])])
  else if has "action" "query" p then
    if has "list" "search" p then
      ok None
         (VObj [("query",
                 VObj [("searchinfo", VObj [("totalhits", VNum 1)]);
                       ("search",
                        VArr [VObj [("title", VStr "Dotta");
                                    ("size", VNum 12)]])])])
    else
      match lookup "titles" p with
      | Some t =>
          if (t =? "Dotta")%string then
            ok None (VObj [("query", VObj [("pages", VArr [sample_page])])])
          else
            ok None
               (VObj [("query",
                       VObj [("pages",
                              VArr [VObj [("title", VStr t);
                                          ("missing", VBool true)]])])])
      | None => ok None (VObj [("batchcomplete", VBool true)])
      end
  else inl (FetchError "request failed").

Definition anonymous : World :=
  mkWorld (new_client "https://wiki.example/api.php" None None) [].

Definition alice : World :=
  mkWorld (new_client "https://wiki.example/api.php"
             (Some "Alice") (Some "secret")) [].

Definition no_args : Arguments := mkArguments None None None None None.

(** ** Auxiliary definitions for the statements *)

(** What a call makes of a response once it is in: parse, then look for
    [error]. *)
Definition outcome (response : Response) : Result Value :=
  match json response with
  | inl e => inl e
  | inr data =>
      match get data "error" with
      | inl e => inl e
      | inr err =>
          if truthy err then
            match api_error err with
            | inl e => inl e
            | inr msg => inl (Error msg)
            end
          else inr data
      end
  end.

(** A remote that sets a cookie on an error reply. *)
Definition badtoken_remote : Remote := fun _ _ =>
  ok (Some "session=s1")
     (VObj [("error", VObj [("code", VStr "badtoken");
                            ("info", VStr "Invalid CSRF token.")])]).

(** [n] calls of [m] in sequence, the results in call order. *)
Fixpoint times {A} (n : nat) (m : M A) : M (list A) :=
  match n with
  | O => ret []
  | S k =>
      x <- m ;;
      xs <- times k m ;;
      ret (x :: xs)
  end.

Definition login_token_params : list (string * Value) :=
  [("action", VStr "query"); ("meta", VStr "tokens"); ("type", VStr "login")].

Definition login_params (u p lt : string) : list (string * Value) :=
  [("action", VStr "login"); ("lgname", VStr u); ("lgpassword", VStr p);
   ("lgtoken", VStr lt)].

(** The names registered by the [ListToolsRequestSchema] handler. *)
Definition tool_names : list string :=
  ["search_pages"; "read_page"; "create_page"; "update_page";
   "get_page_history"; "get_categories"].

(** A remote that answers every request with the API error [code],
    [info]. *)
Definition always_error (remote : Remote) (code info : string) : Prop :=
  forall history req,
    exists header props,
      remote history req = inr (mkResponse header (inr (VObj props)))
      /\ prop (VObj props) "error"
         = VObj [("code", VStr code); ("info", VStr info)].

Definition search_args (q : string) (limit : option Z) : Arguments :=
  mkArguments (Some q) limit None None None.

Definition page_args (title : string) : Arguments :=
  mkArguments None None (Some title) None None.

Definition edit_args (title content : string) (summary : option string)
  : Arguments :=
  mkArguments None None (Some title) (Some content) summary.

(** A request that does not give the password away: it has no
    [lgpassword] parameter, or it is the POST of [action=login]. *)
Definition discreet (req : Request) : Prop :=
  lookup "lgpassword" (req_params req) = None
  \/ (req_method req = POST
      /\ lookup "action" (req_params req) = Some "login").

(** How the state may differ after a method has run: the configuration
    is the same, a set login flag stays set, a cached (truthy) token
    stays as it is, the jar and the request log have only grown, the log
    by at most [n] requests, all of them [discreet]. *)
Definition evolves (n : nat) (w w' : World) : Prop :=
  apiUrl (client w') = apiUrl (client w)
  /\ username (client w') = username (client w)
  /\ password (client w') = password (client w)
  /\ (loggedIn (client w) = true -> loggedIn (client w') = true)
  /\ (truthy (editToken (client w)) = true ->
      editToken (client w') = editToken (client w))
  /\ (exists cs, cookies (client w') = (cookies (client w) ++ cs)%list)
  /\ (exists rs, sent w' = (sent w ++ rs)%list
                 /\ (List.length rs <= n)%nat
                 /\ Forall discreet rs).

(** Requests handled one after the other, as the transport delivers
    them: each call of the handler starts in the state the previous one
    left. *)
Fixpoint serve (remote : Remote) (requests : list CallToolRequest) (w : World)
  : list CallToolResult * World :=
  match requests with
  | [] => ([], w)
  | request :: rest =>
      let (result, w1) := callTool remote request w in
      let (results, w2) := serve remote rest w1 in
      (result :: results, w2)
  end.

(** Sample states: a client that is logged in, and one that holds an
    edit token the wiki no longer accepts. *)
Definition logged_in : World :=
  mkWorld (mkClient "https://wiki.example/api.php" (Some "Alice")
             (Some "secret") true VUndef ["session=s1"]) [].

Definition stale : World :=
  mkWorld (mkClient "https://wiki.example/api.php" None None false
             (VStr "old") []) [].

(** A remote that is down: [fetch] rejects. *)
Definition down_remote : Remote := fun _ _ => inl (FetchError "ECONNREFUSED").

(** A remote that sets a cookie and sends a page that is not JSON. *)
Definition html_remote : Remote := fun _ _ =>
  inr (mkResponse (Some "session=s1")
         (inl (SyntaxError "Unexpected token < in JSON at position 0"))).

(** A value with properties to read: anything but [undefined] and
    [null]. *)
Definition readable (v : Value) : Prop := v <> VUndef /\ v <> VNull.

(** The entries the [map] callbacks build from a readable element. *)
Definition search_item (page : Value) : Value :=
  VObj [("title", prop page "title"); ("snippet", prop page "snippet");
        ("size", prop page "size"); ("wordCount", prop page "wordcount");
        ("timestamp", prop page "timestamp")].

Definition history_item (rev : Value) : Value :=
  VObj [("id", prop rev "revid"); ("timestamp", prop rev "timestamp");
        ("user", prop rev "user"); ("comment", prop rev "comment")].

(** The result all three page tools return for a missing page. *)
Definition page_missing (page : Value) : CallToolResult :=
  json_result (VObj [("title", prop page "title"); ("exists", VBool false);
                     ("message", VStr "Page does not exist")]).

(** A remote whose page carries neither [missing] nor [revisions], as for
    a title the wiki calls invalid. *)
Definition invalid_title_remote : Remote := fun _ _ =>
  ok None
     (VObj [("query",
             VObj [("pages",
                    VArr [VObj [("title", VStr "<");
                                ("invalid", VBool true)]])])]).

(** Sample environments. *)
Definition full_env : Env := fun name =>
  if (name =? "MEDIAWIKI_API_URL")%string then Some "https://wiki.example/api.php"
  else if (name =? "MEDIAWIKI_USERNAME")%string then Some "Alice"
  else if (name =? "MEDIAWIKI_PASSWORD")%string then Some "secret"
  else if (name =? "SSL_ENABLED")%string then Some "TRUE"
  else if (name =? "SSL_KEY_PATH")%string then Some "key.pem"
  else if (name =? "SSL_CERT_PATH")%string then Some "cert.pem"
  else if (name =? "PORT")%string then Some "8080"
  else None.

Definition url_only_env : Env := fun name =>
  if (name =? "MEDIAWIKI_API_URL")%string then Some "https://wiki.example/api.php"
  else None.

(** Only the three wiki variables, and [PORT] set to the empty string. *)
Definition minimal_env : Env := fun name =>
  if (name =? "MEDIAWIKI_API_URL")%string then Some "https://wiki.example/api.php"
  else if (name =? "MEDIAWIKI_USERNAME")%string then Some "Alice"
  else if (name =? "MEDIAWIKI_PASSWORD")%string then Some "secret"
  else if (name =? "PORT")%string then Some ""
  else None.

(** ** Numbers within the model, and the limit argument as received *)

(** An integer that a JavaScript number holds exactly and that [String]
    and [JSON.stringify] print in plain decimal, as [string_of_Z] does. *)
Definition safe_integer (z : Z) : Prop := - 2 ^ 53 < z < 2 ^ 53.

(** A value all of whose numbers are safe integers (and which holds no
    NaN, as no JSON text denotes one). *)
Fixpoint safe_value (v : Value) : bool :=
  match v with
  | VNum z => (- 2 ^ 53 <? z) && (z <? 2 ^ 53)
  | VNaN => false
  | VArr items =>
      (fix all (l : list Value) : bool :=
         match l with
         | [] => true
         | x :: rest => safe_value x && all rest
         end) items
  | VObj props =>
      (fix all (l : list (string * Value)) : bool :=
         match l with
         | [] => true
         | (_, x) :: rest => safe_value x && all rest
         end) props
  | _ => true
  end.

(** [ToNumber(v)], which [Math.min] applies to its arguments, where it
    reads no numeric text: [None] for a string, for an array (it converts
    through its text) and for an object with a [valueOf] or [toString] of
    its own.  Any other object converts through "[object Object]" to
    NaN. *)
Definition ToNumber (v : Value) : option Value :=
  match v with
  | VUndef => Some VNaN
  | VNull => Some (VNum 0)
  | VBool true => Some (VNum 1)
  | VBool false => Some (VNum 0)
  | VNum z => Some (VNum z)
  | VNaN => Some VNaN
  | VObj props =>
      match assoc "valueOf" props, assoc "toString" props with
      | None, None => Some VNaN
      | _, _ => None
      end
  | VStr _ | VArr _ => None
  end.

(** [Math.min(a, b)] for an integer [b]: NaN as soon as [a] converts to
    NaN. *)
Definition Math_min (a : Value) (b : Z) : option Value :=
  match ToNumber a with
  | Some (VNum z) => Some (VNum (Z.min z b))
  | Some _ => Some VNaN
  | None => None
  end.

(** [searchPages(query, limit)] for whatever it is handed as [limit]. *)
Definition searchPages_any (remote : Remote) (query : option string)
  (limit : Value) : M Value :=
  let limit := match limit with VUndef => VNum 10 | _ => limit end in
  makeApiCall remote
    [("action", VStr "query"); ("list", VStr "search");
     ("srsearch", of_opt query); ("srlimit", limit);
     ("srinfo", VStr "totalhits");
     ("srprop", VStr "size|wordcount|timestamp|snippet")] GET.

(** The [search_pages] case for the [limit] argument as it arrives (the
    cast [limit?: number] is erased at run time): [undefined] when the
    key is absent, else the JSON value the caller sent.  [None] where
    [ToNumber] is not modelled. *)
Definition search_pages_any (remote : Remote) (query : option string)
  (limit : Value) : option (M CallToolResult) :=
  let limit := match limit with VUndef => VNum 10 | _ => limit end in
  match Math_min limit 50 with
  | None => None
  | Some clamped =>
      Some (result <- searchPages_any remote query clamped ;;
            q <- result @ "query" ;;
            search <- q @ "search" ;;
            pages <- lift (js_map "result.query.search" search_entry search) ;;
            q' <- result @ "query" ;;
            searchinfo <- q' @ "searchinfo" ;;
            totalhits <- searchinfo @ "totalhits" ;;
            ret (json_result
                   (VObj [("totalHits", totalhits); ("pages", VArr pages)])))
  end.

(** A client whose password the sample wiki rejects. *)
Definition mallory : World :=
  mkWorld (new_client "https://wiki.example/api.php"
             (Some "Alice") (Some "wrong")) [].

(** A remote that hands out tokens as the sample wiki does and refuses
    every edit without raising an API error. *)
Definition refusing_remote : Remote := fun history req =>
  if has "action" "edit" (req_params req) then
    ok None (VObj [("edit", VObj [("result", VStr "Failure")])])
  else sample_remote history req.

(** * Properties *)

(** ** The transport primitive *)

Ltac run :=
  unfold bind, this, fetch, update, lift, ret, throw; cbn [fst snd client sent].

Lemma makeApiCall_eq (remote : Remote) params method (w : World) :
  makeApiCall remote params method w =
  let req := build_request (client w) params method in
  match remote (sent w) req with
  | inl e => (inl e, mkWorld (client w) (sent w ++ [req])%list)
  | inr response =>
      (outcome response,
       mkWorld (save_cookie response (client w)) (sent w ++ [req])%list)
  end.
Proof.
  unfold makeApiCall, outcome; run.
  destruct (remote (sent w) (build_request (client w) params method))
    as [e | response]; [reflexivity |].
  destruct (json response) as [e | data]; [reflexivity |].
  destruct (get data "error") as [e | err]; [reflexivity |].
  destruct (truthy err); [| reflexivity].
  destruct (api_error err); reflexivity.
Qed.

Lemma outcome_ok response props :
  json response = inr (VObj props) ->
  truthy (prop (VObj props) "error") = false ->
  outcome response = inr (VObj props).
Proof.
  intros Hj He. unfold outcome. rewrite Hj. unfold get. rewrite He.
  reflexivity.
Qed.

Lemma outcome_error response data eprops :
  json response = inr data ->
  prop data "error" = VObj eprops ->
  outcome response =
  inl (Error ("MediaWiki API error: " ++ ToString (prop (VObj eprops) "code")
              ++ " - " ++ ToString (prop (VObj eprops) "info"))).
Proof.
  intros Hj He. unfold outcome. rewrite Hj.
  destruct data; try discriminate He.
  unfold get. rewrite He. reflexivity.
Qed.

Lemma makeApiCall_ok (remote : Remote) params method w response props :
  remote (sent w) (build_request (client w) params method) = inr response ->
  json response = inr (VObj props) ->
  truthy (prop (VObj props) "error") = false ->
  makeApiCall remote params method w =
  (inr (VObj props),
   mkWorld (save_cookie response (client w))
           (sent w ++ [build_request (client w) params method])%list).
Proof.
  intros Hr Hj He. rewrite makeApiCall_eq. cbv zeta. rewrite Hr.
  now rewrite (outcome_ok _ Hj He).
Qed.

Lemma makeApiCall_sent (remote : Remote) params method w :
  sent (snd (makeApiCall remote params method w)) =
  (sent w ++ [build_request (client w) params method])%list.
Proof.
  rewrite makeApiCall_eq. cbv zeta.
  destruct (remote _ _); reflexivity.
Qed.

Lemma save_cookie_cookies response c :
  cookies (save_cookie response c) =
  (cookies c ++ match set_cookie response with
                | Some h => if (h =? "")%string then [] else [h]
                | None => []
                end)%list.
Proof.
  unfold save_cookie. destruct (set_cookie response) as [h |].
  - cbn [truthy]. destruct (h =? "")%string; cbn.
    + now rewrite app_nil_r.
    + reflexivity.
  - now rewrite app_nil_r.
Qed.

Lemma lookup_cookie_header c :
  lookup "Cookie" (base_headers c) =
  match cookies c with
  | [] => None
  | _ => Some (join "; " (cookies c))
  end.
Proof.
  unfold base_headers. destruct (cookies c); reflexivity.
Qed.

Lemma request_cookie_header c params method :
  lookup "Cookie" (req_headers (build_request c params method)) =
  match cookies c with
  | [] => None
  | _ => Some (join "; " (cookies c))
  end.
Proof.
  destruct method; cbn [build_request req_headers].
  - apply lookup_cookie_header.
  - unfold base_headers. destruct (cookies c); reflexivity.
Qed.

(** C1, as stated, fails: the jar does not stay as it was on the error
    branch.  With a response that carries both a [Set-Cookie] header and
    an [error] object the call throws the API error and the jar has grown
    by the header's value. *)
Lemma makeApiCall_error_jar_grows :
  ~ (forall (remote : Remote) params method w response data eprops,
        remote (sent w) (build_request (client w) params method) = inr response ->
        json response = inr data ->
        prop data "error" = VObj eprops ->
        cookies (client (snd (makeApiCall remote params method w))) =
        cookies (client w)).
Proof.
  intro H.
  specialize (H badtoken_remote [] GET anonymous _ _ _
                eq_refl eq_refl eq_refl).
  vm_compute in H. discriminate H.
Qed.

(** C1 (amended): once the response is in, a non-empty [Set-Cookie] header
    is appended to the cookie jar whatever the body holds; then a body
    whose [error] is set (an error object, or any truthy value) makes the
    call fail with the message "MediaWiki API error: <code> - <info>"
    built from it, and a body whose [error] is absent or falsy is
    returned unchanged. *)
Theorem makeApiCall_spec (remote : Remote) params method w response :
  remote (sent w) (build_request (client w) params method) = inr response ->
  cookies (client (snd (makeApiCall remote params method w))) =
    (cookies (client w) ++ match set_cookie response with
                           | Some h => if (h =? "")%string then [] else [h]
                           | None => []
                           end)%list
  /\ (forall data err,
         json response = inr data ->
         get data "error" = inr err ->
         truthy err = true ->
         fst (makeApiCall remote params method w) =
         inl (Error ("MediaWiki API error: " ++ ToString (prop err "code")
                     ++ " - " ++ ToString (prop err "info"))))
  /\ (forall data err,
         json response = inr data ->
         get data "error" = inr err ->
         truthy err = false ->
         fst (makeApiCall remote params method w) = inr data).
Proof.
  intros Hr. rewrite makeApiCall_eq. cbv zeta. rewrite Hr.
  cbn [fst snd client]. split; [apply save_cookie_cookies | split].
  - intros data err Hj Hg Ht. unfold outcome. rewrite Hj, Hg, Ht.
    destruct err; try discriminate Ht; reflexivity.
  - intros data err Hj Hg Ht. unfold outcome. now rewrite Hj, Hg, Ht.
Qed.

Lemma makeApiCall_spec_witness :
  cookies (client (snd (makeApiCall badtoken_remote [] POST anonymous))) =
    ["session=s1"]
  /\ fst (makeApiCall badtoken_remote [] POST anonymous) =
     inl (Error "MediaWiki API error: badtoken - Invalid CSRF token.").
Proof.
  destruct (@makeApiCall_spec badtoken_remote [] POST anonymous _ eq_refl)
    as [Hc [He _]].
  split.
  - exact Hc.
  - exact (He _ _ eq_refl eq_refl eq_refl).
Defined.

(** ** The cookie jar *)

Lemma makeApiCall_cookies (remote : Remote) params method w response :
  remote (sent w) (build_request (client w) params method) = inr response ->
  client (snd (makeApiCall remote params method w)) =
  save_cookie response (client w).
Proof.
  intros Hr. rewrite makeApiCall_eq. cbv zeta. now rewrite Hr.
Qed.

Lemma makeApiCall_jar_prefix (remote : Remote) params method w :
  exists new,
    cookies (client (snd (makeApiCall remote params method w))) =
    (cookies (client w) ++ new)%list.
Proof.
  rewrite makeApiCall_eq. cbv zeta.
  destruct (remote _ _) as [e | response]; cbn [snd client].
  - exists []. now rewrite app_nil_r.
  - rewrite save_cookie_cookies. eauto.
Qed.

Lemma save_cookie_nonempty response c h :
  set_cookie response = Some h -> h <> "" ->
  cookies (save_cookie response c) = (cookies c ++ [h])%list.
Proof.
  intros Hs Hh. rewrite save_cookie_cookies, Hs.
  destruct (String.eqb_spec h ""); [contradiction | reflexivity].
Qed.

(** C8: the cookie jar only grows and keeps its order.  Every request
    carries, when the jar is not empty, a [Cookie] header equal to the
    stored values joined with "; " in append order (and no such header
    when the jar is empty); a call leaves the old jar as a prefix of the
    new one; and after two calls whose responses set the values [c1] and
    [c2] (whether distinct or equal: nothing is deduplicated) the next
    request's [Cookie] header joins the old values, [c1] and [c2], in that
    order. *)
Theorem cookie_jar_accumulates (remote : Remote) :
  (forall params method w,
      exists req,
        sent (snd (makeApiCall remote params method w)) = (sent w ++ [req])%list
        /\ lookup "Cookie" (req_headers req) =
           match cookies (client w) with
           | [] => None
           | _ => Some (join "; " (cookies (client w)))
           end)
  /\ (forall params method w,
         exists new,
           cookies (client (snd (makeApiCall remote params method w))) =
           (cookies (client w) ++ new)%list)
  /\ (forall p1 m1 p2 m2 p3 m3 w response1 response2 c1 c2,
         let w1 := snd (makeApiCall remote p1 m1 w) in
         let w2 := snd (makeApiCall remote p2 m2 w1) in
         let w3 := snd (makeApiCall remote p3 m3 w2) in
         remote (sent w) (build_request (client w) p1 m1) = inr response1 ->
         set_cookie response1 = Some c1 -> c1 <> "" ->
         remote (sent w1) (build_request (client w1) p2 m2) = inr response2 ->
         set_cookie response2 = Some c2 -> c2 <> "" ->
         cookies (client w2) = (cookies (client w) ++ [c1; c2])%list
         /\ exists req3,
             sent w3 = (sent w2 ++ [req3])%list
             /\ lookup "Cookie" (req_headers req3) =
                Some (join "; " (cookies (client w) ++ [c1; c2])%list)).
Proof.
  split; [| split].
  - intros params method w. eexists. split.
    + apply makeApiCall_sent.
    + apply request_cookie_header.
  - intros. apply makeApiCall_jar_prefix.
  - intros p1 m1 p2 m2 p3 m3 w response1 response2 c1 c2 w1 w2 w3
           Hr1 Hs1 Hc1 Hr2 Hs2 Hc2.
    assert (Hjar : cookies (client w2) = (cookies (client w) ++ [c1; c2])%list).
    { unfold w2. rewrite (makeApiCall_cookies _ _ _ _ Hr2).
      rewrite (save_cookie_nonempty _ _ Hs2 Hc2).
      unfold w1. rewrite (makeApiCall_cookies _ _ _ _ Hr1).
      rewrite (save_cookie_nonempty _ _ Hs1 Hc1).
      now rewrite <- app_assoc. }
    split; [exact Hjar |].
    eexists. split.
    + apply makeApiCall_sent.
    + rewrite request_cookie_header, Hjar.
      destruct (cookies (client w) ++ [c1; c2])%list eqn:E; [| reflexivity].
      destruct (cookies (client w)); discriminate E.
Qed.

Lemma cookie_jar_accumulates_witness :
  let w1 := snd (makeApiCall badtoken_remote [] GET anonymous) in
  let w2 := snd (makeApiCall badtoken_remote [] POST w1) in
  cookies (client w2) = ["session=s1"; "session=s1"]
  /\ exists req3,
      sent (snd (makeApiCall badtoken_remote [] GET w2)) = (sent w2 ++ [req3])%list
      /\ lookup "Cookie" (req_headers req3) = Some "session=s1; session=s1".
Proof.
  cbv zeta.
  refine (proj2 (proj2 (cookie_jar_accumulates badtoken_remote))
            [] GET [] POST [] GET anonymous _ _ "session=s1" "session=s1"
            eq_refl eq_refl _ eq_refl eq_refl _); discriminate.
Defined.

(** ** The edit token *)

Lemma truthy_prop_obj v key :
  truthy (prop v key) = true -> exists props, v = VObj props.
Proof.
  destruct v; cbn; try discriminate. eauto.
Qed.

Lemma get_obj props key : get (VObj props) key = inr (prop (VObj props) key).
Proof. reflexivity. Qed.

Lemma getEditToken_cached (remote : Remote) w :
  truthy (editToken (client w)) = true ->
  getEditToken remote w = (inr (editToken (client w)), w).
Proof.
  intros H. unfold getEditToken; run. now rewrite H.
Qed.

Lemma times_cached (remote : Remote) w n :
  truthy (editToken (client w)) = true ->
  times n (getEditToken remote) w = (inr (repeat (editToken (client w)) n), w).
Proof.
  intros H. induction n as [| n IH]; [reflexivity |].
  cbn [times repeat]. unfold bind at 1.
  rewrite (getEditToken_cached _ _ H). unfold bind at 1.
  now rewrite IH.
Qed.

Lemma getEditToken_fetch (remote : Remote) w response props :
  truthy (editToken (client w)) = false ->
  remote (sent w)
         (build_request (client w)
            [("action", VStr "query"); ("meta", VStr "tokens")] GET)
  = inr response ->
  json response = inr (VObj props) ->
  truthy (prop (VObj props) "error") = false ->
  truthy (prop (prop (prop (VObj props) "query") "tokens") "csrftoken") = true ->
  getEditToken remote w =
  (inr (prop (prop (prop (VObj props) "query") "tokens") "csrftoken"),
   mkWorld (set_editToken
              (prop (prop (prop (VObj props) "query") "tokens") "csrftoken")
              (save_cookie response (client w)))
           (sent w ++ [build_request (client w)
                         [("action", VStr "query"); ("meta", VStr "tokens")]
                         GET])%list).
Proof.
  intros Hc Hr Hj He Ht.
  destruct (truthy_prop_obj _ _ Ht) as [tprops Htok].
  assert (Hq : exists qprops, prop (VObj props) "query" = VObj qprops).
  { apply truthy_prop_obj with (key := "tokens"). now rewrite Htok. }
  destruct Hq as [qprops Hq].
  unfold getEditToken. unfold bind at 1. unfold this at 1. rewrite Hc.
  cbn [negb]. unfold bind at 1. unfold bind at 1.
  rewrite (makeApiCall_ok _ _ _ _ Hr Hj He).
  run. rewrite get_obj, Hq, get_obj. rewrite Hq in Htok. rewrite Htok.
  reflexivity.
Qed.

(** C2: [getEditToken] memoizes.  Starting without a cached token, when
    the remote answers the token request with a body that has no [error]
    and a non-empty [query.tokens.csrftoken], [N >= 1] calls in sequence
    all return that token and hand [fetch] exactly one request, the GET
    with [action=query], [meta=tokens]; from then on a call returns the
    token and leaves the client and the request log as they are. *)
Theorem getEditToken_memoizes (remote : Remote) w response props N :
  let req :=
    mkRequest GET (apiUrl (client w)) (base_headers (client w))
      [("action", "query"); ("meta", "tokens"); ("format", "json");
       ("formatversion", "2")] in
  let token := prop (prop (prop (VObj props) "query") "tokens") "csrftoken" in
  truthy (editToken (client w)) = false ->
  remote (sent w) req = inr response ->
  json response = inr (VObj props) ->
  truthy (prop (VObj props) "error") = false ->
  truthy token = true ->
  (1 <= N)%nat ->
  exists w',
    times N (getEditToken remote) w = (inr (repeat token N), w')
    /\ sent w' = (sent w ++ [req])%list
    /\ getEditToken remote w' = (inr token, w').
Proof.
  intros req token Hc Hr Hj He Ht HN.
  destruct N as [| n]; [lia |].
  pose proof (getEditToken_fetch remote w Hc Hr Hj He Ht) as Hfirst.
  fold token in Hfirst.
  set (w1 := mkWorld (set_editToken token (save_cookie response (client w)))
                     (sent w ++ [req])%list).
  assert (Hcached : truthy (editToken (client w1)) = true) by exact Ht.
  exists w1. split; [| split].
  - cbn [times repeat]. unfold bind at 1.
    change (build_request (client w)
              [("action", VStr "query"); ("meta", VStr "tokens")] GET)
      with req in Hfirst.
    rewrite Hfirst. fold w1. unfold bind at 1.
    rewrite (times_cached remote w1 n Hcached). reflexivity.
  - reflexivity.
  - exact (getEditToken_cached remote w1 Hcached).
Qed.

Lemma getEditToken_memoizes_witness :
  exists w',
    times 3 (getEditToken sample_remote) anonymous =
      (inr [VStr "CSRF+\"; VStr "CSRF+\"; VStr "CSRF+\"], w')
    /\ sent w' =
       [mkRequest GET "https://wiki.example/api.php"
          [("User-Agent", "MediaWiki-MCP-Server/1.0")]
          [("action", "query"); ("meta", "tokens"); ("format", "json");
           ("formatversion", "2")]]
    /\ getEditToken sample_remote w' = (inr (VStr "CSRF+\"), w').
Proof.
  exact (@getEditToken_memoizes sample_remote anonymous _ _ 3%nat
           eq_refl eq_refl eq_refl eq_refl eq_refl
           (le_S _ _ (le_S _ _ (le_n 1)))).
Defined.

(** ** Login *)

Lemma save_cookie_fields response c :
  apiUrl (save_cookie response c) = apiUrl c
  /\ username (save_cookie response c) = username c
  /\ password (save_cookie response c) = password c
  /\ loggedIn (save_cookie response c) = loggedIn c
  /\ editToken (save_cookie response c) = editToken c.
Proof.
  unfold save_cookie. destruct (set_cookie response) as [h |]; [| tauto].
  destruct (truthy (VStr h)); cbn; tauto.
Qed.

Lemma prop_defined_obj v key :
  prop v key <> VUndef -> exists props, v = VObj props.
Proof.
  destruct v; cbn; try congruence. eauto.
Qed.

Lemma truthy_str s : s <> "" -> truthy (VStr s) = true.
Proof.
  intros H. cbn. now destruct (String.eqb_spec s "").
Qed.

Lemma login_anonymous (remote : Remote) w :
  truthy (of_opt (username (client w))) = false
  \/ truthy (of_opt (password (client w))) = false ->
  login remote w = (inr false, w).
Proof.
  intros H. unfold login; run.
  destruct H as [H | H]; rewrite H; cbn [negb orb]; [reflexivity |].
  now rewrite orb_true_r.
Qed.

Lemma login_already (remote : Remote) w :
  truthy (of_opt (username (client w))) = true ->
  truthy (of_opt (password (client w))) = true ->
  loggedIn (client w) = true ->
  login remote w = (inr true, w).
Proof.
  intros Hu Hp Hl. unfold login; run. now rewrite Hu, Hp, Hl.
Qed.

Lemma login_first (remote : Remote) w u p response1 props1 lt
      response2 props2 lprops :
  let r1 := build_request (client w) login_token_params GET in
  let c1 := save_cookie response1 (client w) in
  let r2 := build_request c1 (login_params u p lt) POST in
  let c2 := save_cookie response2 c1 in
  username (client w) = Some u -> u <> "" ->
  password (client w) = Some p -> p <> "" ->
  loggedIn (client w) = false ->
  remote (sent w) r1 = inr response1 ->
  json response1 = inr (VObj props1) ->
  truthy (prop (VObj props1) "error") = false ->
  prop (prop (prop (VObj props1) "query") "tokens") "logintoken" = VStr lt ->
  remote (sent w ++ [r1])%list r2 = inr response2 ->
  json response2 = inr (VObj props2) ->
  truthy (prop (VObj props2) "error") = false ->
  prop (VObj props2) "login" = VObj lprops ->
  login remote w =
  if is_str (prop (VObj lprops) "result") "Success"
  then (inr true, mkWorld (set_loggedIn true c2) (sent w ++ [r1; r2])%list)
  else (inl (Error ("Login failed: "
                    ++ ToString (prop (VObj lprops) "reason"))),
        mkWorld c2 (sent w ++ [r1; r2])%list).
Proof.
  intros r1 c1 r2 c2 Hu Hu' Hp Hp' Hl Hr1 Hj1 He1 Ht Hr2 Hj2 He2 Hlg.
  assert (Htok : exists tprops,
             prop (prop (VObj props1) "query") "tokens" = VObj tprops).
  { apply prop_defined_obj with (key := "logintoken"). now rewrite Ht. }
  destruct Htok as [tprops Htok].
  assert (Hq : exists qprops, prop (VObj props1) "query" = VObj qprops).
  { apply prop_defined_obj with (key := "tokens"). now rewrite Htok. }
  destruct Hq as [qprops Hq].
  rewrite Hq in Htok. rewrite Hq, Htok in Ht.
  unfold login. unfold bind at 1. unfold this at 1.
  rewrite Hu, Hp. cbn [of_opt].
  rewrite (truthy_str Hu'), (truthy_str Hp'), Hl. cbn [negb orb].
  unfold bind at 1.
  fold login_token_params.
  rewrite (makeApiCall_ok _ _ _ _ Hr1 Hj1 He1). fold r1 c1.
  unfold bind at 1. unfold lift at 1. rewrite get_obj, Hq.
  unfold bind at 1. unfold lift at 1. rewrite get_obj, Htok.
  unfold bind at 1. unfold lift at 1. rewrite get_obj, Ht.
  unfold bind at 1. fold (login_params u p lt).
  rewrite (makeApiCall_ok remote (login_params u p lt) POST
             (mkWorld c1 (sent w ++ [r1])%list) Hr2 Hj2 He2).
  cbn [client sent]. fold r2 c2.
  unfold bind at 1. unfold lift at 1. rewrite get_obj, Hlg.
  unfold bind at 1. unfold lift at 1. rewrite get_obj.
  rewrite <- app_assoc. cbn [app].
  destruct (is_str (prop (VObj lprops) "result") "Success"); reflexivity.
Qed.

Lemma is_str_spec v s : is_str v s = true <-> v = VStr s.
Proof.
  destruct v; cbn; try (split; [discriminate | intros H; discriminate H]).
  rewrite String.eqb_eq. split; congruence.
Qed.

(** C3: [login()].  Without a user name or without a password (absent or
    empty) it returns [false] and touches neither the client nor the
    network.  Logged in already, it returns [true] in the same way.
    Otherwise it sends a GET for a login token and then, the token in
    hand, a POST with [lgname], [lgpassword] and [lgtoken]: exactly these
    two requests.  When the reply's [login.result] is the string
    "Success" it sets [loggedIn] and returns [true]; when it is anything
    else it throws "Login failed: <reason>" and [loggedIn] stays false.
    The cookies of both replies are kept either way. *)
Theorem login_spec (remote : Remote) :
  (forall w,
      truthy (of_opt (username (client w))) = false
      \/ truthy (of_opt (password (client w))) = false ->
      login remote w = (inr false, w))
  /\ (forall w,
         truthy (of_opt (username (client w))) = true ->
         truthy (of_opt (password (client w))) = true ->
         loggedIn (client w) = true ->
         login remote w = (inr true, w))
  /\ (forall w u p response1 props1 lt response2 props2 lprops,
         let c1 := save_cookie response1 (client w) in
         let c2 := save_cookie response2 c1 in
         let r1 :=
           mkRequest GET (apiUrl (client w)) (base_headers (client w))
             [("action", "query"); ("meta", "tokens"); ("type", "login");
              ("format", "json"); ("formatversion", "2")] in
         let r2 :=
           mkRequest POST (apiUrl (client w))
             (base_headers c1
              ++ [("Content-Type", "application/x-www-form-urlencoded")])%list
             [("action", "login"); ("lgname", u); ("lgpassword", p);
              ("lgtoken", lt); ("format", "json"); ("formatversion", "2")] in
         username (client w) = Some u -> u <> "" ->
         password (client w) = Some p -> p <> "" ->
         loggedIn (client w) = false ->
         remote (sent w) r1 = inr response1 ->
         json response1 = inr (VObj props1) ->
         truthy (prop (VObj props1) "error") = false ->
         prop (prop (prop (VObj props1) "query") "tokens") "logintoken"
         = VStr lt ->
         remote (sent w ++ [r1])%list r2 = inr response2 ->
         json response2 = inr (VObj props2) ->
         truthy (prop (VObj props2) "error") = false ->
         prop (VObj props2) "login" = VObj lprops ->
         (prop (VObj lprops) "result" = VStr "Success" ->
          exists w',
            login remote w = (inr true, w')
            /\ sent w' = (sent w ++ [r1; r2])%list
            /\ cookies (client w') = cookies c2
            /\ loggedIn (client w') = true)
         /\ (prop (VObj lprops) "result" <> VStr "Success" ->
             exists w',
               login remote w =
               (inl (Error ("Login failed: "
                            ++ ToString (prop (VObj lprops) "reason"))), w')
               /\ sent w' = (sent w ++ [r1; r2])%list
               /\ cookies (client w') = cookies c2
               /\ loggedIn (client w') = false)).
Proof.
  split; [| split].
  - intros w. apply login_anonymous.
  - intros w. apply login_already.
  - intros w u p response1 props1 lt response2 props2 lprops c1 c2 r1 r2
           Hu Hu' Hp Hp' Hl Hr1 Hj1 He1 Ht Hr2 Hj2 He2 Hlg.
    assert (E2 : build_request c1 (login_params u p lt) POST = r2).
    { unfold r2, c1. destruct (save_cookie_fields response1 (client w)) as [<- _].
      reflexivity. }
    pose proof (@login_first remote w u p response1 props1 lt response2 props2
                  lprops Hu Hu' Hp Hp' Hl Hr1 Hj1 He1 Ht) as H.
    cbv zeta in H. fold c1 in H. rewrite E2 in H.
    change (build_request (client w) login_token_params GET) with r1 in H.
    specialize (H Hr2 Hj2 He2 Hlg). fold c2 in H.
    split; intros Hres.
    + rewrite (proj2 (is_str_spec _ _) Hres) in H.
      exists (mkWorld (set_loggedIn true c2) (sent w ++ [r1; r2])%list).
      repeat split. exact H.
    + destruct (is_str (prop (VObj lprops) "result") "Success") eqn:E.
      { apply is_str_spec in E. contradiction. }
      exists (mkWorld c2 (sent w ++ [r1; r2])%list).
      split; [exact H |]. repeat split. cbn [client]. unfold c2, c1.
      destruct (save_cookie_fields response2 (save_cookie response1 (client w)))
        as (_ & _ & _ & -> & _).
      destruct (save_cookie_fields response1 (client w))
        as (_ & _ & _ & -> & _).
      exact Hl.
Qed.

Lemma login_spec_witness :
  (exists w',
      login sample_remote alice = (inr true, w')
      /\ sent w' =
         [mkRequest GET "https://wiki.example/api.php"
            [("User-Agent", "MediaWiki-MCP-Server/1.0")]
            [("action", "query"); ("meta", "tokens"); ("type", "login");
             ("format", "json"); ("formatversion", "2")];
          mkRequest POST "https://wiki.example/api.php"
            [("User-Agent", "MediaWiki-MCP-Server/1.0");
             ("Cookie", "session=s1");
             ("Content-Type", "application/x-www-form-urlencoded")]
            [("action", "login"); ("lgname", "Alice");
             ("lgpassword", "secret"); ("lgtoken", "LT+\");
             ("format", "json"); ("formatversion", "2")]]
      /\ cookies (client w') = ["session=s1"; "user=Alice"]
      /\ loggedIn (client w') = true)
  /\ (exists w',
         login sample_remote mallory =
         (inl (Error "Login failed: Incorrect password"), w')
         /\ sent w' =
            [mkRequest GET "https://wiki.example/api.php"
               [("User-Agent", "MediaWiki-MCP-Server/1.0")]
               [("action", "query"); ("meta", "tokens"); ("type", "login");
                ("format", "json"); ("formatversion", "2")];
             mkRequest POST "https://wiki.example/api.php"
               [("User-Agent", "MediaWiki-MCP-Server/1.0");
                ("Cookie", "session=s1");
                ("Content-Type", "application/x-www-form-urlencoded")]
               [("action", "login"); ("lgname", "Alice");
                ("lgpassword", "wrong"); ("lgtoken", "LT+\");
                ("format", "json"); ("formatversion", "2")]]
         /\ cookies (client w') = ["session=s1"]
         /\ loggedIn (client w') = false).
Proof.
  split.
  - exact (proj1 (proj2 (proj2 (login_spec sample_remote))
                    alice "Alice" "secret" _ _ "LT+\" _ _ _
                    eq_refl ltac:(discriminate) eq_refl ltac:(discriminate)
                    eq_refl eq_refl eq_refl eq_refl eq_refl eq_refl eq_refl
                    eq_refl eq_refl)
             eq_refl).
  - exact (proj2 (proj2 (proj2 (login_spec sample_remote))
                    mallory "Alice" "wrong" _ _ "LT+\" _ _ _
                    eq_refl ltac:(discriminate) eq_refl ltac:(discriminate)
                    eq_refl eq_refl eq_refl eq_refl eq_refl eq_refl eq_refl
                    eq_refl eq_refl)
             ltac:(discriminate)).
Defined.

(** ** The dispatcher: [search_pages] *)

Lemma callTool_world (remote : Remote) request w :
  snd (callTool remote request w) = snd (handle remote request w).
Proof.
  unfold callTool. destruct (handle remote request w) as [[e | r] w'];
    reflexivity.
Qed.

Lemma search_pages_world (remote : Remote) args w :
  snd (search_pages remote args w) =
  snd (searchPages remote (arg_query args)
         (Some (Z.min (default 10 (arg_limit args)) 50)) w).
Proof.
  unfold search_pages, bind, lift, ret.
  destruct (searchPages remote _ _ w) as [[e | result] w']; [reflexivity |].
  cbn [snd].
  destruct (get result "query") as [e | q]; [reflexivity |].
  destruct (get q "search") as [e | s]; [reflexivity |].
  destruct (js_map _ _ s); [reflexivity |].
  destruct (get q "searchinfo") as [e | si]; [reflexivity |].
  destruct (get si "totalhits"); reflexivity.
Qed.

Lemma search_request (remote : Remote) args w :
  exists req,
    sent (snd (callTool remote (mkCall "search_pages" (Some args)) w)) =
    (sent w ++ [req])%list
    /\ lookup "srlimit" (req_params req) =
       Some (string_of_Z (Z.min (default 10 (arg_limit args)) 50)).
Proof.
  rewrite callTool_world.
  change (handle remote (mkCall "search_pages" (Some args)) w)
    with (search_pages remote args w).
  rewrite search_pages_world. unfold searchPages. cbn [default].
  eexists. split; [apply makeApiCall_sent |].
  destruct (arg_query args); reflexivity.
Qed.


(** On a [limit] that is absent or a number the case as received is the
    case as cast. *)
Lemma search_pages_any_typed (remote : Remote) args :
  search_pages_any remote (arg_query args) (of_opt_num (arg_limit args)) =
  Some (search_pages remote args).
Proof.
  unfold search_pages_any, search_pages.
  destruct (arg_limit args) as [l |]; reflexivity.
Qed.




(** C10: the clamp is an upper bound only.  A [limit] argument (an
    integer in the safe range) that is at most 50, zero and negative
    numbers included, is the [srlimit] parameter of the request as it
    stands. *)
Theorem search_limit_no_floor (remote : Remote) args w limit :
  arg_limit args = Some limit ->
  safe_integer limit ->
  limit <= 50 ->
  exists req,
    sent (snd (callTool remote (mkCall "search_pages" (Some args)) w)) =
    (sent w ++ [req])%list
    /\ lookup "srlimit" (req_params req) = Some (string_of_Z limit).
Proof.
  intros Ha _ Hle.
  destruct (search_request remote args w) as [req [Hs Hl]].
  exists req. split; [exact Hs |].
  rewrite Hl, Ha. cbn [default]. now rewrite Z.min_l.
Qed.

Lemma search_limit_no_floor_witness :
  (exists req,
      sent (snd (callTool sample_remote
                   (mkCall "search_pages" (Some (search_args "dotta" (Some 0))))
                   anonymous)) = ([] ++ [req])%list
      /\ lookup "srlimit" (req_params req) = Some "0")
  /\ (exists req,
         sent (snd (callTool sample_remote
                      (mkCall "search_pages"
                         (Some (search_args "dotta" (Some (-5)))))
                      anonymous)) = ([] ++ [req])%list
         /\ lookup "srlimit" (req_params req) = Some "-5").
Proof.
  split.
  - apply (@search_limit_no_floor sample_remote
             (search_args "dotta" (Some 0)) anonymous 0 eq_refl).
    + split; reflexivity.
    + discriminate.
  - apply (@search_limit_no_floor sample_remote
             (search_args "dotta" (Some (-5))) anonymous (-5) eq_refl).
    + split; reflexivity.
    + discriminate.
Defined.

(** ** The dispatcher: the login gate *)

Lemma dispatch_unknown (remote : Remote) tool args :
  ~ In tool tool_names ->
  dispatch remote tool args = throw (Error ("Unknown tool: " ++ tool)).
Proof.
  intros H. unfold dispatch.
  repeat match goal with
         | |- context [(tool =? ?s)%string] =>
             destruct (String.eqb_spec tool s);
             [exfalso; apply H; subst tool; cbn; tauto |]
         end.
  reflexivity.
Qed.

Lemma handle_gate (remote : Remote) request args w :
  arguments request = Some args ->
  name request <> "search_pages" ->
  name request <> "read_page" ->
  handle remote request w =
  match login remote w with
  | (inl e, w1) => (inl e, w1)
  | (inr _, w1) => dispatch remote (name request) args w1
  end.
Proof.
  intros Ha Hs Hr. unfold handle. rewrite Ha.
  destruct (String.eqb_spec (name request) "search_pages"); [contradiction |].
  destruct (String.eqb_spec (name request) "read_page"); [contradiction |].
  cbn [negb andb]. unfold bind, ret.
  destruct (login remote w) as [[e | b] w1]; reflexivity.
Qed.

Lemma unknown_tool_after_login (remote : Remote) request args w b w1 :
  arguments request = Some args ->
  ~ In (name request) tool_names ->
  login remote w = (inr b, w1) ->
  callTool remote request w =
  (mkResult [TextContent ("Error: Unknown tool: " ++ name request)] (Some true),
   w1).
Proof.
  intros Ha Hn Hl. unfold callTool.
  rewrite (handle_gate remote request w Ha), Hl.
  - now rewrite (dispatch_unknown remote args Hn).
  - intros E. apply Hn. rewrite E. cbn; tauto.
  - intros E. apply Hn. rewrite E. cbn; tauto.
Qed.

(** C9: the login gate sits in front of the [switch].  For an invocation
    that carries arguments and whose name is neither "search_pages" nor
    "read_page", [login()] is awaited first: the [switch] runs in the
    state [login()] leaves, and not at all when [login()] throws.  This
    covers names the [switch] does not know: with credentials configured,
    not yet logged in, and a remote that accepts the login, the two login
    requests go out, the client ends up logged in, and only then the
    invocation fails with "Unknown tool: <name>". *)
Theorem login_gate (remote : Remote) request args w :
  arguments request = Some args ->
  name request <> "search_pages" ->
  name request <> "read_page" ->
  handle remote request w =
    match login remote w with
    | (inl e, w1) => (inl e, w1)
    | (inr _, w1) => dispatch remote (name request) args w1
    end
  /\ (forall b w1,
         ~ In (name request) tool_names ->
         login remote w = (inr b, w1) ->
         callTool remote request w =
         (mkResult [TextContent ("Error: Unknown tool: " ++ name request)]
                   (Some true), w1))
  /\ (forall u p response1 props1 lt response2 props2 lprops,
         let r1 := build_request (client w) login_token_params GET in
         let c1 := save_cookie response1 (client w) in
         let r2 := build_request c1 (login_params u p lt) POST in
         ~ In (name request) tool_names ->
         username (client w) = Some u -> u <> "" ->
         password (client w) = Some p -> p <> "" ->
         loggedIn (client w) = false ->
         remote (sent w) r1 = inr response1 ->
         json response1 = inr (VObj props1) ->
         truthy (prop (VObj props1) "error") = false ->
         prop (prop (prop (VObj props1) "query") "tokens") "logintoken"
         = VStr lt ->
         remote (sent w ++ [r1])%list r2 = inr response2 ->
         json response2 = inr (VObj props2) ->
         truthy (prop (VObj props2) "error") = false ->
         prop (VObj props2) "login" = VObj lprops ->
         is_str (prop (VObj lprops) "result") "Success" = true ->
         exists w',
           callTool remote request w =
           (mkResult [TextContent ("Error: Unknown tool: " ++ name request)]
                     (Some true), w')
           /\ sent w' = (sent w ++ [r1; r2])%list
           /\ loggedIn (client w') = true).
Proof.
  intros Ha Hs Hr. split; [| split].
  - now apply handle_gate.
  - intros b w1 Hn Hl. now apply unknown_tool_after_login with (args := args) (b := b).
  - intros u p response1 props1 lt response2 props2 lprops r1 c1 r2
           Hn Hu Hu' Hp Hp' Hl Hr1 Hj1 He1 Ht Hr2 Hj2 He2 Hlg Hok.
    pose proof (@login_first remote w u p response1 props1 lt response2 props2
                  lprops Hu Hu' Hp Hp' Hl Hr1 Hj1 He1 Ht Hr2 Hj2 He2 Hlg) as H.
    cbv zeta in H. rewrite Hok in H.
    eexists (mkWorld _ _). split; [| split].
    + exact (unknown_tool_after_login remote request w Ha Hn H).
    + reflexivity.
    + reflexivity.
Qed.

Lemma login_gate_witness :
  exists w',
    callTool sample_remote (mkCall "frobnicate" (Some no_args)) alice =
    (mkResult [TextContent "Error: Unknown tool: frobnicate"] (Some true), w')
    /\ List.length (sent w') = 2%nat
    /\ loggedIn (client w') = true.
Proof.
  assert (Hn : ~ In "frobnicate" tool_names).
  { cbn. intros H. repeat (destruct H as [H | H]; [discriminate H |]).
    exact H. }
  destruct (proj2 (proj2 (@login_gate sample_remote
                            (mkCall "frobnicate" (Some no_args)) no_args alice
                            eq_refl ltac:(discriminate) ltac:(discriminate)))
              "Alice" "secret" _ _ "LT+\" _ _ _ Hn
              eq_refl ltac:(discriminate) eq_refl ltac:(discriminate) eq_refl
              eq_refl eq_refl eq_refl eq_refl eq_refl eq_refl eq_refl eq_refl
              eq_refl)
    as [w' [Hc [Hsent Hlog]]].
  exists w'. split; [exact Hc | split; [| exact Hlog]].
  rewrite Hsent. reflexivity.
Defined.

(** ** The dispatcher: the [catch] clause *)

Section AlwaysError.

Variable remote : Remote.
Variables code info : string.
Hypothesis Hremote : always_error remote code info.

Let msg : string := "MediaWiki API error: " ++ code ++ " - " ++ info.

Lemma makeApiCall_fails params method w :
  exists w', makeApiCall remote params method w = (inl (Error msg), w').
Proof.
  destruct (Hremote (sent w) (build_request (client w) params method))
    as (header & props & Hr & He).
  rewrite makeApiCall_eq. cbv zeta. rewrite Hr.
  rewrite (@outcome_error (mkResponse header (inr (VObj props)))
             (VObj props) _ eq_refl He).
  eexists. reflexivity.
Qed.

Ltac fail_call :=
  match goal with
  | |- context [makeApiCall remote ?p ?m ?w] =>
      let w' := fresh "w'" in
      destruct (makeApiCall_fails p m w) as [w' ->]
  end.

Lemma login_cases w :
  (exists b, login remote w = (inr b, w))
  \/ (exists w', login remote w = (inl (Error msg), w')).
Proof.
  unfold login; run.
  destruct (negb _ || negb _); [left; eauto |].
  destruct (loggedIn (client w)); [left; eauto |].
  right. fail_call. eauto.
Qed.

Lemma search_pages_fails args w :
  exists w', search_pages remote args w = (inl (Error msg), w').
Proof.
  unfold search_pages, searchPages; run. fail_call. eauto.
Qed.

Lemma read_page_fails args w :
  exists w', read_page remote args w = (inl (Error msg), w').
Proof.
  unfold read_page, getPage; run. fail_call. eauto.
Qed.

Lemma create_page_fails args w :
  exists w', create_page remote args w = (inl (Error msg), w').
Proof.
  unfold create_page, createPage, getEditToken; run.
  destruct (truthy (editToken (client w))); cbn [negb]; cbv beta iota;
    fail_call; eauto.
Qed.

Lemma update_page_fails args w :
  exists w', update_page remote args w = (inl (Error msg), w').
Proof.
  unfold update_page, updatePage, getEditToken; run.
  destruct (truthy (editToken (client w))); cbn [negb]; cbv beta iota;
    fail_call; eauto.
Qed.

Lemma get_page_history_fails args w :
  exists w', get_page_history remote args w = (inl (Error msg), w').
Proof.
  unfold get_page_history, getPageHistory; run. fail_call. eauto.
Qed.

Lemma get_categories_fails args w :
  exists w', get_categories remote args w = (inl (Error msg), w').
Proof.
  unfold get_categories, getCategories; run. fail_call. eauto.
Qed.

Lemma dispatch_fails tool args w :
  In tool tool_names ->
  exists w', dispatch remote tool args w = (inl (Error msg), w').
Proof.
  intros H. cbn in H.
  destruct H as [<- | [<- | [<- | [<- | [<- | [<- | []]]]]]].
  - apply search_pages_fails.
  - apply read_page_fails.
  - apply create_page_fails.
  - apply update_page_fails.
  - apply get_page_history_fails.
  - apply get_categories_fails.
Qed.

Lemma handle_fails tool args w :
  In tool tool_names ->
  exists w', handle remote (mkCall tool (Some args)) w = (inl (Error msg), w').
Proof.
  intros H. unfold handle. cbn [arguments name].
  destruct (negb (tool =? "search_pages")%string
            && negb (tool =? "read_page")%string).
  - unfold bind at 1. unfold bind at 1.
    destruct (login_cases w) as [[b ->] | [w' ->]].
    + unfold ret at 1. apply (dispatch_fails _ _ H).
    + eauto.
  - unfold bind, ret. apply (dispatch_fails _ _ H).
Qed.

End AlwaysError.

(** C4: nothing thrown while a tool call is handled gets past the
    handler.  The handler returns what the body returns, or, when the
    body throws, a result flagged [isError: true] whose only content is
    the text "Error: <message>".  So a call without arguments yields
    "Error: Arguments are required"; an error thrown by [login()] (a
    failed login, a failed request) yields its message; a name the
    [switch] does not know yields "Error: Unknown tool: <name>"; and when
    the remote answers with an API error [code], [info] (such as
    [badtoken]) each of the six tools yields
    "Error: MediaWiki API error: <code> - <info>". *)
Theorem errors_become_results (remote : Remote) :
  (forall request w,
      callTool remote request w =
      match handle remote request w with
      | (inl e, w') =>
          (mkResult [TextContent ("Error: " ++ message e)] (Some true), w')
      | (inr result, w') => (result, w')
      end)
  /\ (forall tool w,
         callTool remote (mkCall tool None) w =
         (mkResult [TextContent "Error: Arguments are required"] (Some true),
          w))
  /\ (forall request args w e w1,
         arguments request = Some args ->
         name request <> "search_pages" ->
         name request <> "read_page" ->
         login remote w = (inl e, w1) ->
         callTool remote request w =
         (mkResult [TextContent ("Error: " ++ message e)] (Some true), w1))
  /\ (forall request args w b w1,
         arguments request = Some args ->
         ~ In (name request) tool_names ->
         login remote w = (inr b, w1) ->
         callTool remote request w =
         (mkResult [TextContent ("Error: Unknown tool: " ++ name request)]
                   (Some true), w1))
  /\ (forall tool args w code info,
         In tool tool_names ->
         always_error remote code info ->
         exists w',
           callTool remote (mkCall tool (Some args)) w =
           (mkResult
              [TextContent ("Error: MediaWiki API error: " ++ code ++ " - "
                            ++ info)] (Some true), w')).
Proof.
  split; [| split; [| split; [| split]]].
  - intros request w. unfold callTool.
    destruct (handle remote request w) as [[e | r] w']; reflexivity.
  - reflexivity.
  - intros request args w e w1 Ha Hs Hr Hl. unfold callTool.
    now rewrite (handle_gate remote request w Ha Hs Hr), Hl.
  - intros request args w b w1 Ha Hn Hl.
    exact (unknown_tool_after_login remote request w Ha Hn Hl).
  - intros tool args w code info Hin Herr.
    destruct (handle_fails Herr args w Hin) as [w' Hw].
    exists w'. unfold callTool. now rewrite Hw.
Qed.

Lemma badtoken_remote_always :
  always_error badtoken_remote "badtoken" "Invalid CSRF token.".
Proof.
  intros history req. do 2 eexists. split; reflexivity.
Qed.

Lemma errors_become_results_witness :
  exists w',
    callTool badtoken_remote
      (mkCall "update_page" (Some (edit_args "Dotta" "text" None))) alice =
    (mkResult
       [TextContent "Error: MediaWiki API error: badtoken - Invalid CSRF token."]
       (Some true), w').
Proof.
  apply (proj2 (proj2 (proj2 (proj2 (errors_become_results badtoken_remote))))
           "update_page" (edit_args "Dotta" "text" None) alice
           "badtoken" "Invalid CSRF token.").
  - cbn. tauto.
  - exact badtoken_remote_always.
Defined.

(** ** The dispatcher: edits *)

Lemma bind_lift_snd {A B} (m : M A) (r : A -> Result B) w :
  snd (bind m (fun a => lift (r a)) w) = snd (m w).
Proof.
  unfold bind, lift. destruct (m w) as [[e | a] w']; reflexivity.
Qed.

Lemma getEditToken_sent (remote : Remote) w :
  sent (snd (getEditToken remote w)) =
  if truthy (editToken (client w)) then sent w
  else (sent w ++ [build_request (client w)
                     [("action", VStr "query"); ("meta", VStr "tokens")] GET])%list.
Proof.
  destruct (truthy (editToken (client w))) eqn:E.
  - now rewrite (getEditToken_cached remote w E).
  - unfold getEditToken. unfold bind at 1. unfold this at 1. rewrite E.
    cbn [negb].
    pose proof (makeApiCall_sent remote
                  [("action", VStr "query"); ("meta", VStr "tokens")] GET w)
      as Hs.
    unfold bind, lift, update, this, ret.
    destruct (makeApiCall remote _ GET w) as [[e | resp] w1]; cbn [snd] in *;
      [exact Hs |].
    destruct (get resp "query") as [e | q]; [exact Hs |].
    destruct (get q "tokens") as [e | t]; [exact Hs |].
    destruct (get t "csrftoken") as [e | c]; exact Hs.
Qed.

Lemma login_gate_anonymous (remote : Remote) tool args w :
  tool <> "search_pages" -> tool <> "read_page" ->
  truthy (of_opt (username (client w))) = false
  \/ truthy (of_opt (password (client w))) = false ->
  handle remote (mkCall tool (Some args)) w = dispatch remote tool args w.
Proof.
  intros Hs Hr Hanon.
  rewrite (@handle_gate remote (mkCall tool (Some args)) args w eq_refl Hs Hr).
  now rewrite (login_anonymous remote w Hanon).
Qed.

(** C6: [createPage] and [updatePage] obtain the edit token from
    [getEditToken] first (one token request goes out unless a token is
    cached) and then POST [action=edit] with [title], [text], [summary]
    and that [token]; [createonly=true] is in the request of [createPage]
    and not in that of [updatePage].  Through the dispatcher the same
    requests go out when no credentials are configured: [login()]
    returning [false] stops neither the token fetch nor the edit. *)
Theorem edit_requests (remote : Remote) w token w1 title content :
  let token_request :=
    mkRequest GET (apiUrl (client w)) (base_headers (client w))
      [("action", "query"); ("meta", "tokens"); ("format", "json");
       ("formatversion", "2")] in
  let edit (createonly : bool) (summary : string) :=
    mkRequest POST (apiUrl (client w1))
      (base_headers (client w1)
       ++ [("Content-Type", "application/x-www-form-urlencoded")])%list
      ([("action", "edit"); ("title", title); ("text", content);
        ("summary", summary); ("token", token)]
       ++ (if createonly then [("createonly", "true")] else [])
       ++ [("format", "json"); ("formatversion", "2")])%list in
  getEditToken remote w = (inr (VStr token), w1) ->
  sent w1 = (if truthy (editToken (client w)) then sent w
             else sent w ++ [token_request])%list
  /\ (forall summary,
         sent (snd (createPage remote (Some title) (Some content)
                      (Some summary) w))
         = (sent w1 ++ [edit true summary])%list
         /\ sent (snd (updatePage remote (Some title) (Some content)
                         (Some summary) w))
            = (sent w1 ++ [edit false summary])%list)
  /\ (truthy (of_opt (username (client w))) = false
      \/ truthy (of_opt (password (client w))) = false ->
      forall summary,
        sent (snd (callTool remote
                     (mkCall "create_page"
                        (Some (edit_args title content summary))) w))
        = (sent w1 ++ [edit true (default "Created via MCP" summary)])%list
        /\ sent (snd (callTool remote
                        (mkCall "update_page"
                           (Some (edit_args title content summary))) w))
           = (sent w1 ++ [edit false (default "Updated via MCP" summary)])%list).
Proof.
  intros token_request edit Hget.
  assert (Hclient : forall summary,
             sent (snd (createPage remote (Some title) (Some content)
                          (Some summary) w))
             = (sent w1 ++ [edit true summary])%list
             /\ sent (snd (updatePage remote (Some title) (Some content)
                             (Some summary) w))
                = (sent w1 ++ [edit false summary])%list).
  { intros summary. split.
    - unfold createPage. unfold bind at 1. rewrite Hget.
      apply makeApiCall_sent.
    - unfold updatePage. unfold bind at 1. rewrite Hget.
      apply makeApiCall_sent. }
  split; [| split].
  - pose proof (getEditToken_sent remote w) as Hs. rewrite Hget in Hs.
    exact Hs.
  - exact Hclient.
  - intros Hanon summary. rewrite !callTool_world.
    rewrite !login_gate_anonymous by (trivial; discriminate).
    change (dispatch remote "create_page" (edit_args title content summary) w)
      with (create_page remote (edit_args title content summary) w).
    change (dispatch remote "update_page" (edit_args title content summary) w)
      with (update_page remote (edit_args title content summary) w).
    unfold create_page, update_page. rewrite !bind_lift_snd.
    cbn [arg_title arg_content arg_summary edit_args].
    split; apply Hclient.
Qed.

Lemma edit_requests_witness :
  let token_request :=
    mkRequest GET "https://wiki.example/api.php"
      [("User-Agent", "MediaWiki-MCP-Server/1.0")]
      [("action", "query"); ("meta", "tokens"); ("format", "json");
       ("formatversion", "2")] in
  let edit (summary : string) (createonly : list (string * string)) :=
    mkRequest POST "https://wiki.example/api.php"
      [("User-Agent", "MediaWiki-MCP-Server/1.0");
       ("Content-Type", "application/x-www-form-urlencoded")]
      ([("action", "edit"); ("title", "Dotta"); ("text", "text");
        ("summary", summary); ("token", "CSRF+\")]
       ++ createonly
       ++ [("format", "json"); ("formatversion", "2")])%list in
  sent (snd (callTool sample_remote
               (mkCall "create_page" (Some (edit_args "Dotta" "text" None)))
               anonymous))
  = [token_request; edit "Created via MCP" [("createonly", "true")]]
  /\ sent (snd (callTool sample_remote
                  (mkCall "update_page" (Some (edit_args "Dotta" "text" None)))
                  anonymous))
     = [token_request; edit "Updated via MCP" []].
Proof.
  exact (proj2 (proj2 (@edit_requests sample_remote anonymous "CSRF+\" _
                         "Dotta" "text" eq_refl))
           (or_introl eq_refl) None).
Defined.

(** ** The dispatcher: [read_page] *)

Lemma get_defined v key :
  prop v key <> VUndef -> get v key = inr (prop v key).
Proof.
  intros H. destruct (prop_defined_obj _ _ H) as [props ->]. reflexivity.
Qed.

Lemma first_page_ok result page rest w :
  prop (prop result "query") "pages" = VArr (page :: rest) ->
  first_page result w = (inr page, w).
Proof.
  intros Hp.
  assert (Hq : prop result "query" <> VUndef).
  { intros E. rewrite E in Hp. discriminate Hp. }
  unfold first_page; run.
  rewrite (get_defined _ _ Hq), get_defined by (rewrite Hp; discriminate).
  now rewrite Hp.
Qed.

(** C7: [read_page] reshapes the raw response.  Let [page] be the first
    entry of [query.pages] in the body [getPage] returned.  When
    [page.missing] is set (truthy) the result is the JSON text of
    [{title, exists: false, message: "Page does not exist"}]; when it is
    not (absent or falsy) and the page has a first revision with a [main]
    slot, the result is the JSON text of [{title, content, lastEdit:
    {timestamp, user, comment}}], the content from that slot and the rest
    from that revision.  Neither result is flagged as an error. *)
Theorem read_page_reshapes (remote : Remote) args w result w1 page rest :
  getPage remote (arg_title args) w = (inr result, w1) ->
  prop (prop result "query") "pages" = VArr (page :: rest) ->
  (truthy (prop page "missing") = true ->
   callTool remote (mkCall "read_page" (Some args)) w =
   (mkResult
      [TextContent
         (JSON_stringify
            (VObj [("title", prop page "title"); ("exists", VBool false);
                   ("message", VStr "Page does not exist")]))]
      None, w1))
  /\ (truthy (prop page "missing") = false ->
      forall revision revisions main,
        prop page "revisions" = VArr (revision :: revisions) ->
        prop (prop revision "slots") "main" = VObj main ->
        callTool remote (mkCall "read_page" (Some args)) w =
        (mkResult
           [TextContent
              (JSON_stringify
                 (VObj [("title", prop page "title");
                        ("content", prop (VObj main) "content");
                        ("lastEdit",
                         VObj [("timestamp", prop revision "timestamp");
                               ("user", prop revision "user");
                               ("comment", prop revision "comment")])]))]
           None, w1)).
Proof.
  intros Hget Hpages.
  split; unfold callTool;
    change (handle remote (mkCall "read_page" (Some args)) w)
      with (read_page remote args w);
    unfold read_page; unfold bind at 1; rewrite Hget;
    unfold bind at 1; rewrite (first_page_ok _ _ Hpages).
  - intros Hm. destruct (truthy_prop_obj _ _ Hm) as [pprops ->].
    run. rewrite get_obj, Hm. reflexivity.
  - intros Hm revision revisions main Hrev Hmain.
    assert (Hpage : exists pprops, page = VObj pprops).
    { apply prop_defined_obj with (key := "revisions").
      rewrite Hrev. discriminate. }
    destruct Hpage as [pprops ->].
    assert (Hslots : prop revision "slots" <> VUndef).
    { intros E. rewrite E in Hmain. discriminate Hmain. }
    destruct (prop_defined_obj _ _ Hslots) as [rprops ->].
    run. rewrite get_obj, Hm, get_obj, Hrev. cbn [get0].
    rewrite get_obj, (get_defined (prop (VObj rprops) "slots") "main")
      by (rewrite Hmain; discriminate).
    rewrite Hmain. reflexivity.
Qed.

Lemma read_page_reshapes_witness :
  let q := String (ascii_of_nat 34) "" in
  let nl := String (ascii_of_nat 10) "" in
  fst (callTool sample_remote (mkCall "read_page" (Some (page_args "Nope")))
         anonymous)
  = mkResult
      [TextContent
         ("{" ++ nl ++ "  " ++ q ++ "title" ++ q ++ ": " ++ q ++ "Nope"
          ++ q ++ "," ++ nl ++ "  " ++ q ++ "exists" ++ q ++ ": false,"
          ++ nl ++ "  " ++ q ++ "message" ++ q ++ ": " ++ q
          ++ "Page does not exist" ++ q ++ nl ++ "}")]
      None
  /\ fst (callTool sample_remote (mkCall "read_page" (Some (page_args "Dotta")))
            anonymous)
     = mkResult
         [TextContent
            ("{" ++ nl ++ "  " ++ q ++ "title" ++ q ++ ": " ++ q
             ++ "Dotta" ++ q ++ "," ++ nl ++ "  " ++ q ++ "content" ++ q
             ++ ": " ++ q ++ "Hello" ++ q ++ "," ++ nl ++ "  " ++ q
             ++ "lastEdit" ++ q ++ ": {" ++ nl ++ "    " ++ q
             ++ "timestamp" ++ q ++ ": " ++ q ++ "2024-01-01T00:00:00Z"
             ++ q ++ "," ++ nl ++ "    " ++ q ++ "user" ++ q ++ ": "
             ++ q ++ "Alice" ++ q ++ "," ++ nl ++ "    " ++ q
             ++ "comment" ++ q ++ ": " ++ q ++ "init" ++ q ++ nl
             ++ "  }" ++ nl ++ "}")]
         None.
Proof.
  split.
  - exact (f_equal fst
             (proj1 (@read_page_reshapes sample_remote (page_args "Nope")
                       anonymous _ _ _ _ eq_refl eq_refl) eq_refl)).
  - exact (f_equal fst
             (proj2 (@read_page_reshapes sample_remote (page_args "Dotta")
                       anonymous _ _ _ _ eq_refl eq_refl) eq_refl
                _ _ _ eq_refl eq_refl)).
Defined.

(** ** What no method changes *)

Lemma evolves_refl w : evolves 0 w w.
Proof.
  unfold evolves. repeat split; trivial.
  - exists []. now rewrite app_nil_r.
  - exists []. rewrite app_nil_r. repeat split; auto.
Qed.

Lemma evolves_trans n m w w1 w2 :
  evolves n w w1 -> evolves m w1 w2 -> evolves (n + m) w w2.
Proof.
  intros (Ha & Hu & Hp & Hl & Ht & [cs Hc] & [rs (Hs & Hn & Hd)])
         (Ha' & Hu' & Hp' & Hl' & Ht' & [cs' Hc'] & [rs' (Hs' & Hn' & Hd')]).
  unfold evolves. repeat split.
  - congruence.
  - congruence.
  - congruence.
  - auto.
  - intros H. rewrite Ht'; [auto |]. now rewrite Ht.
  - exists (cs ++ cs')%list. now rewrite Hc', Hc, app_assoc.
  - exists (rs ++ rs')%list. repeat split.
    + now rewrite Hs', Hs, app_assoc.
    + rewrite length_app. lia.
    + apply Forall_app. now split.
Qed.

Lemma evolves_le n m w w' : (n <= m)%nat -> evolves n w w' -> evolves m w w'.
Proof.
  intros Hle (Ha & Hu & Hp & Hl & Ht & Hc & [rs (Hs & Hn & Hd)]).
  unfold evolves. repeat split; trivial.
  exists rs. repeat split; trivial. lia.
Qed.

Lemma makeApiCall_evolves (remote : Remote) params method w :
  discreet (build_request (client w) params method) ->
  evolves 1 w (snd (makeApiCall remote params method w)).
Proof.
  intros Hd. rewrite makeApiCall_eq. cbv zeta.
  assert (Hlog : exists rs,
             (sent w ++ [build_request (client w) params method])%list
             = (sent w ++ rs)%list
             /\ (List.length rs <= 1)%nat /\ Forall discreet rs).
  { eexists. repeat split; [apply le_n | auto]. }
  destruct (remote _ _) as [e | response]; cbn [snd client sent].
  - unfold evolves. cbn [client sent]. repeat split; trivial.
    exists []. now rewrite app_nil_r.
  - destruct (save_cookie_fields response (client w))
      as (Ha & Hu & Hp & Hl & Ht).
    unfold evolves. cbn [client sent]. repeat split; trivial.
    + congruence.
    + rewrite save_cookie_cookies. eauto.
Qed.

Lemma bind_evolves {A B} n k (m : M A) (f : A -> M B) w :
  evolves n w (snd (m w)) ->
  (forall a w1, m w = (inr a, w1) -> evolves k w1 (snd (f a w1))) ->
  evolves (n + k) w (snd (bind m f w)).
Proof.
  intros Hm Hf. unfold bind.
  destruct (m w) as [[e | a] w1] eqn:E; cbn [snd] in *.
  - apply evolves_le with (n := n); [lia | exact Hm].
  - apply evolves_trans with (w1 := w1); auto.
Qed.

Lemma bind_pure_snd {A B} (m : M A) (f : A -> M B) w :
  (forall a w1, snd (f a w1) = w1) ->
  snd (bind m f w) = snd (m w).
Proof.
  intros Hf. unfold bind. destruct (m w) as [[e | a] w1]; [reflexivity |].
  apply Hf.
Qed.

Lemma lift_snd {A} (r : Result A) w : snd (lift r w) = w.
Proof. reflexivity. Qed.

Lemma getEditToken_evolves (remote : Remote) w :
  evolves 1 w (snd (getEditToken remote w)).
Proof.
  destruct (truthy (editToken (client w))) eqn:E.
  - rewrite (getEditToken_cached remote w E).
    apply evolves_le with (n := 0%nat); [lia | apply evolves_refl].
  - assert (Hd : discreet (build_request (client w)
                   [("action", VStr "query"); ("meta", VStr "tokens")] GET))
      by (left; reflexivity).
    pose proof (makeApiCall_evolves remote _ _ w Hd) as Hev.
    unfold getEditToken. unfold bind at 1. unfold this at 1. rewrite E.
    cbn [negb]. unfold bind, lift, update, this, ret.
    destruct (makeApiCall remote _ GET w) as [[e | resp] w1]; cbn [snd] in *;
      [exact Hev |].
    destruct (get resp "query") as [e | q]; [exact Hev |].
    destruct (get q "tokens") as [e | t]; [exact Hev |].
    destruct (get t "csrftoken") as [e | c]; [exact Hev |].
    cbn [snd].
    destruct Hev as (Ha & Hu & Hp & Hl & Ht & Hc & Hs).
    unfold evolves. cbn [client sent set_editToken apiUrl username password
                           loggedIn editToken cookies].
    repeat split; trivial. intros H. congruence.
Qed.

Lemma login_evolves (remote : Remote) w :
  evolves 2 w (snd (login remote w)).
Proof.
  unfold login. unfold bind at 1. unfold this at 1.
  destruct (negb _ || negb _).
  { apply evolves_le with (n := 0%nat); [lia | apply evolves_refl]. }
  destruct (loggedIn (client w)).
  { apply evolves_le with (n := 0%nat); [lia | apply evolves_refl]. }
  apply (@bind_evolves _ _ 1 1).
  { apply makeApiCall_evolves. left. reflexivity. }
  intros tokenResponse w1 _.
  unfold bind at 1. unfold lift at 1.
  destruct (get tokenResponse "query") as [e | q];
    [apply evolves_le with (n := 0%nat); [lia | apply evolves_refl] |].
  unfold bind at 1. unfold lift at 1.
  destruct (get q "tokens") as [e | t];
    [apply evolves_le with (n := 0%nat); [lia | apply evolves_refl] |].
  unfold bind at 1. unfold lift at 1.
  destruct (get t "logintoken") as [e | loginToken];
    [apply evolves_le with (n := 0%nat); [lia | apply evolves_refl] |].
  apply (@bind_evolves _ _ 1 0).
  { apply makeApiCall_evolves. right. split; reflexivity. }
  intros loginResponse w2 _.
  unfold bind, lift, update, ret, throw.
  destruct (get loginResponse "login") as [e | lg]; [apply evolves_refl |].
  destruct (get lg "result") as [e | r]; [apply evolves_refl |].
  destruct (is_str r "Success").
  - cbn [snd]. unfold evolves.
    cbn [client sent set_loggedIn apiUrl username password loggedIn
           editToken cookies].
    repeat split; trivial.
    + exists []. now rewrite app_nil_r.
    + exists []. rewrite app_nil_r. repeat split; auto.
  - destruct (get lg "reason"); apply evolves_refl.
Qed.

Ltac quiet :=
  left;
  repeat match goal with
         | |- context [of_opt ?o] => is_var o; destruct o; cbn [of_opt]
         end;
  reflexivity.

Lemma searchPages_evolves (remote : Remote) query limit w :
  evolves 1 w (snd (searchPages remote query limit w)).
Proof. apply makeApiCall_evolves. quiet. Qed.

Lemma getPage_evolves (remote : Remote) title w :
  evolves 1 w (snd (getPage remote title w)).
Proof. apply makeApiCall_evolves. quiet. Qed.

Lemma getPageHistory_evolves (remote : Remote) title limit w :
  evolves 1 w (snd (getPageHistory remote title limit w)).
Proof. apply makeApiCall_evolves. quiet. Qed.

Lemma getCategories_evolves (remote : Remote) title w :
  evolves 1 w (snd (getCategories remote title w)).
Proof. apply makeApiCall_evolves. quiet. Qed.

Lemma createPage_evolves (remote : Remote) title content summary w :
  evolves 2 w (snd (createPage remote title content summary w)).
Proof.
  apply (@bind_evolves _ _ 1 1); [apply getEditToken_evolves |].
  intros token w1 _. apply makeApiCall_evolves.
  left. destruct title, content, token; reflexivity.
Qed.

Lemma updatePage_evolves (remote : Remote) title content summary w :
  evolves 2 w (snd (updatePage remote title content summary w)).
Proof.
  apply (@bind_evolves _ _ 1 1); [apply getEditToken_evolves |].
  intros token w1 _. apply makeApiCall_evolves.
  left. destruct title, content, token; reflexivity.
Qed.

Lemma first_page_snd result w : snd (first_page result w) = w.
Proof.
  unfold first_page, bind, lift.
  destruct (get result "query") as [e | q]; [reflexivity |].
  destruct (get q "pages"); reflexivity.
Qed.

Lemma read_page_world (remote : Remote) args w :
  snd (read_page remote args w) = snd (getPage remote (arg_title args) w).
Proof.
  unfold read_page. apply bind_pure_snd. intros result w1.
  unfold bind, lift, ret.
  pose proof (first_page_snd result w1) as Hf.
  destruct (first_page result w1) as [[e | page] w2]; cbn [snd] in *;
    subst w2; [reflexivity |].
  destruct (get page "missing") as [e | missing]; [reflexivity |].
  destruct (truthy missing); [reflexivity |].
  destruct (get page "revisions") as [e | revs]; [reflexivity |].
  destruct (get0 revs) as [e | rev]; [reflexivity |].
  destruct (get rev "slots") as [e | slots]; [reflexivity |].
  destruct (get slots "main") as [e | main]; [reflexivity |].
  destruct (get main "content"); [reflexivity |].
  destruct (get page "title"); [reflexivity |].
  destruct (get rev "timestamp"); [reflexivity |].
  destruct (get rev "user"); [reflexivity |].
  destruct (get rev "comment"); reflexivity.
Qed.

Lemma get_page_history_world (remote : Remote) args w :
  snd (get_page_history remote args w) =
  snd (getPageHistory remote (arg_title args)
         (Some (default 10 (arg_limit args))) w).
Proof.
  unfold get_page_history. apply bind_pure_snd. intros result w1.
  unfold bind, lift, ret.
  pose proof (first_page_snd result w1) as Hf.
  destruct (first_page result w1) as [[e | page] w2]; cbn [snd] in *;
    subst w2; [reflexivity |].
  destruct (get page "missing") as [e | missing]; [reflexivity |].
  destruct (truthy missing); [reflexivity |].
  destruct (get page "revisions") as [e | revs]; [reflexivity |].
  destruct (js_map _ _ revs); [reflexivity |].
  destruct (get page "title"); reflexivity.
Qed.

Lemma get_categories_world (remote : Remote) args w :
  snd (get_categories remote args w) =
  snd (getCategories remote (arg_title args) w).
Proof.
  unfold get_categories. apply bind_pure_snd. intros result w1.
  unfold bind, lift, ret.
  pose proof (first_page_snd result w1) as Hf.
  destruct (first_page result w1) as [[e | page] w2]; cbn [snd] in *;
    subst w2; [reflexivity |].
  destruct (get page "missing") as [e | missing]; [reflexivity |].
  destruct (truthy missing); [reflexivity |].
  destruct (get page "categories") as [e | cats]; [reflexivity |].
  destruct (truthy cats).
  - destruct (js_map _ _ cats); [reflexivity |].
    destruct (get page "title"); reflexivity.
  - destruct (get page "title"); reflexivity.
Qed.

Lemma create_page_world (remote : Remote) args w :
  snd (create_page remote args w) =
  snd (createPage remote (arg_title args) (arg_content args)
         (Some (default "Created via MCP" (arg_summary args))) w).
Proof. unfold create_page. apply bind_lift_snd. Qed.

Lemma update_page_world (remote : Remote) args w :
  snd (update_page remote args w) =
  snd (updatePage remote (arg_title args) (arg_content args)
         (Some (default "Updated via MCP" (arg_summary args))) w).
Proof. unfold update_page. apply bind_lift_snd. Qed.

Lemma dispatch_evolves (remote : Remote) tool args w :
  evolves 2 w (snd (dispatch remote tool args w)).
Proof.
  unfold dispatch.
  destruct (tool =? "search_pages")%string.
  { rewrite search_pages_world.
    apply evolves_le with (n := 1%nat); [lia | apply searchPages_evolves]. }
  destruct (tool =? "read_page")%string.
  { rewrite read_page_world.
    apply evolves_le with (n := 1%nat); [lia | apply getPage_evolves]. }
  destruct (tool =? "create_page")%string.
  { rewrite create_page_world. apply createPage_evolves. }
  destruct (tool =? "update_page")%string.
  { rewrite update_page_world. apply updatePage_evolves. }
  destruct (tool =? "get_page_history")%string.
  { rewrite get_page_history_world.
    apply evolves_le with (n := 1%nat); [lia | apply getPageHistory_evolves]. }
  destruct (tool =? "get_categories")%string.
  { rewrite get_categories_world.
    apply evolves_le with (n := 1%nat); [lia | apply getCategories_evolves]. }
  apply evolves_le with (n := 0%nat); [lia | apply evolves_refl].
Qed.

Lemma handle_evolves (remote : Remote) request w :
  evolves 4 w (snd (handle remote request w)).
Proof.
  unfold handle. destruct (arguments request) as [args |].
  - apply (@bind_evolves _ _ 2 2).
    + destruct (negb _ && negb _).
      * rewrite bind_pure_snd by reflexivity. apply login_evolves.
      * apply evolves_le with (n := 0%nat); [lia | apply evolves_refl].
    + intros _ w1 _. apply dispatch_evolves.
  - apply evolves_le with (n := 0%nat); [lia | apply evolves_refl].
Qed.

Lemma callTool_evolves (remote : Remote) request w :
  evolves 4 w (snd (callTool remote request w)).
Proof. rewrite callTool_world. apply handle_evolves. Qed.

Lemma serve_evolves (remote : Remote) requests w :
  evolves (4 * List.length requests) w (snd (serve remote requests w)).
Proof.
  revert w. induction requests as [| request rest IH]; intros w.
  - apply evolves_refl.
  - cbn [serve]. pose proof (callTool_evolves remote request w) as H1.
    destruct (callTool remote request w) as [result w1]. cbn [snd] in H1.
    specialize (IH w1).
    destruct (serve remote rest w1) as [results w2]. cbn [snd] in *.
    apply evolves_le with (n := (4 + 4 * List.length rest)%nat);
      [cbn [List.length]; lia |].
    now apply evolves_trans with (w1 := w1).
Qed.

(** X1: no tool call changes the configuration of the client: the API
    URL, the user name and the password after any run of requests are
    those the client was built with. *)
Theorem configuration_is_fixed (remote : Remote) requests w :
  let c' := client (snd (serve remote requests w)) in
  apiUrl c' = apiUrl (client w)
  /\ username c' = username (client w)
  /\ password c' = password (client w).
Proof.
  destruct (serve_evolves remote requests w) as (Ha & Hu & Hp & _).
  cbv zeta. auto.
Qed.

(** X2: nothing logs the client out.  Once [loggedIn] is set it is set
    after every later tool call, whatever the remote answers. *)
Theorem login_flag_stays_set (remote : Remote) requests w :
  loggedIn (client w) = true ->
  loggedIn (client (snd (serve remote requests w))) = true.
Proof.
  destruct (serve_evolves remote requests w) as (_ & _ & _ & Hl & _).
  exact Hl.
Qed.

(** X3: a cached edit token is never replaced or dropped.  When the
    client holds a (truthy) token, it holds the same token after any run
    of tool calls, also after calls the remote rejected. *)
Theorem cached_token_is_kept (remote : Remote) requests w :
  truthy (editToken (client w)) = true ->
  editToken (client (snd (serve remote requests w))) = editToken (client w).
Proof.
  destruct (serve_evolves remote requests w) as (_ & _ & _ & _ & Ht & _).
  exact Ht.
Qed.

(** X4: the cookie jar and the request log only grow, the log by at most
    four requests for each tool call (two for the login, one for the edit
    token, one for the operation). *)
Theorem jar_and_log_grow (remote : Remote) requests w :
  let w' := snd (serve remote requests w) in
  exists cs rs,
    cookies (client w') = (cookies (client w) ++ cs)%list
    /\ sent w' = (sent w ++ rs)%list
    /\ (List.length rs <= 4 * List.length requests)%nat.
Proof.
  destruct (serve_evolves remote requests w)
    as (_ & _ & _ & _ & _ & [cs Hc] & [rs (Hs & Hn & _)]).
  cbv zeta. eauto.
Qed.

(** X5: the password leaves the process only in the POST of
    [action=login].  Every request a run of tool calls sends either has
    no [lgpassword] parameter or is that POST; none is a GET with the
    password in its query string. *)
Theorem password_only_in_login_post (remote : Remote) requests w :
  exists rs,
    sent (snd (serve remote requests w)) = (sent w ++ rs)%list
    /\ forall req,
        In req rs ->
        lookup "lgpassword" (req_params req) <> None ->
        req_method req = POST
        /\ lookup "action" (req_params req) = Some "login".
Proof.
  destruct (serve_evolves remote requests w)
    as (_ & _ & _ & _ & _ & _ & [rs (Hs & _ & Hd)]).
  exists rs. split; [exact Hs |].
  intros req Hin Hpw. rewrite Forall_forall in Hd.
  destruct (Hd req Hin) as [Hnone | Hpost]; [contradiction | exact Hpost].
Qed.

Lemma login_flag_stays_set_witness :
  loggedIn (client (snd (serve badtoken_remote
                           [mkCall "update_page"
                              (Some (edit_args "Dotta" "text" None));
                            mkCall "frobnicate" None]
                           logged_in))) = true.
Proof.
  exact (@login_flag_stays_set badtoken_remote _ logged_in eq_refl).
Defined.

Lemma cached_token_is_kept_witness :
  editToken (client (snd (serve sample_remote
                            [mkCall "update_page"
                               (Some (edit_args "Dotta" "text" None));
                             mkCall "create_page"
                               (Some (edit_args "Dotta" "text" None))]
                            stale))) = VStr "old".
Proof.
  exact (@cached_token_is_kept sample_remote _ stale eq_refl).
Defined.

(** ** More on the transport primitive *)

Lemma lookup_encode_set_same key s params :
  lookup key (encode (set_prop key (VStr s) params)) = Some s.
Proof.
  unfold lookup. induction params as [| [k v] rest IH]; cbn.
  - now rewrite String.eqb_refl.
  - destruct (k =? key)%string eqn:E.
    + cbn. now rewrite E.
    + destruct v; cbn; rewrite ?E; exact IH.
Qed.

Lemma lookup_encode_set_other key key' s params :
  key <> key' ->
  lookup key (encode (set_prop key' (VStr s) params)) =
  lookup key (encode params).
Proof.
  intros Hne. unfold lookup.
  induction params as [| [k v] rest IH]; cbn.
  - destruct (String.eqb_spec key' key); [congruence | reflexivity].
  - destruct (k =? key')%string eqn:E.
    + apply String.eqb_eq in E. subst k.
      destruct (String.eqb_spec key' key); [congruence |].
      destruct v; cbn; destruct (String.eqb_spec key' key);
        try congruence; reflexivity.
    + destruct v; cbn; try exact IH;
        destruct (k =? key)%string; trivial.
Qed.

(** X6: every request carries [format=json] and [formatversion=2],
    whatever parameters the caller passed (values the caller gave under
    these names are overwritten), goes to the configured URL and names
    the user agent. *)
Theorem makeApiCall_sets_format (remote : Remote) params method w :
  exists req,
    sent (snd (makeApiCall remote params method w)) = (sent w ++ [req])%list
    /\ lookup "format" (req_params req) = Some "json"
    /\ lookup "formatversion" (req_params req) = Some "2"
    /\ req_method req = method
    /\ req_url req = apiUrl (client w)
    /\ lookup "User-Agent" (req_headers req) = Some "MediaWiki-MCP-Server/1.0".
Proof.
  exists (build_request (client w) params method).
  split; [apply makeApiCall_sent |].
  assert (Hp : req_params (build_request (client w) params method) =
               encode (set_prop "formatversion" (VStr "2")
                         (set_prop "format" (VStr "json") params)))
    by (destruct method; reflexivity).
  rewrite Hp. repeat split.
  - rewrite lookup_encode_set_other by discriminate.
    apply lookup_encode_set_same.
  - apply lookup_encode_set_same.
  - destruct method; reflexivity.
  - destruct method; reflexivity.
  - destruct method; reflexivity.
Qed.

(** X7: how a call fails.  When [fetch] rejects, the call throws that
    error and the client is as before.  When the response arrives but its
    body is not JSON, the call throws the parse error, and the
    [Set-Cookie] value of that response is in the jar all the same.  A
    body that is the JSON [null] makes the call throw a [TypeError]. *)
Theorem makeApiCall_failures (remote : Remote) params method w :
  let req := build_request (client w) params method in
  (forall e,
      remote (sent w) req = inl e ->
      makeApiCall remote params method w =
      (inl e, mkWorld (client w) (sent w ++ [req])%list))
  /\ (forall response e,
         remote (sent w) req = inr response ->
         json response = inl e ->
         makeApiCall remote params method w =
         (inl e, mkWorld (save_cookie response (client w))
                         (sent w ++ [req])%list))
  /\ (forall response,
         remote (sent w) req = inr response ->
         json response = inr VNull ->
         fst (makeApiCall remote params method w) =
         inl (TypeError "Cannot read properties of null (reading 'error')")).
Proof.
  cbv zeta. repeat split.
  - intros e Hr. rewrite makeApiCall_eq. cbv zeta. now rewrite Hr.
  - intros response e Hr Hj. rewrite makeApiCall_eq. cbv zeta. rewrite Hr.
    unfold outcome. now rewrite Hj.
  - intros response Hr Hj. rewrite makeApiCall_eq. cbv zeta. rewrite Hr.
    unfold outcome. now rewrite Hj.
Qed.

Lemma makeApiCall_failures_witness :
  makeApiCall down_remote [] GET anonymous =
    (inl (FetchError "ECONNREFUSED"),
     mkWorld (client anonymous) [build_request (client anonymous) [] GET])
  /\ cookies (client (snd (makeApiCall html_remote [] GET anonymous))) =
     ["session=s1"].
Proof.
  split.
  - exact (proj1 (makeApiCall_failures down_remote [] GET anonymous)
             _ eq_refl).
  - exact (f_equal (fun p => cookies (client (snd p)))
             (proj1 (proj2 (makeApiCall_failures html_remote [] GET anonymous))
                _ _ eq_refl eq_refl)).
Defined.

(** ** More on the edit token and on login *)

Lemma makeApiCall_client_fields (remote : Remote) params method w :
  let c' := client (snd (makeApiCall remote params method w)) in
  apiUrl c' = apiUrl (client w)
  /\ username c' = username (client w)
  /\ password c' = password (client w)
  /\ loggedIn c' = loggedIn (client w)
  /\ editToken c' = editToken (client w).
Proof.
  rewrite makeApiCall_eq. cbv zeta.
  destruct (remote _ _) as [e | response]; cbn [snd client].
  - tauto.
  - apply save_cookie_fields.
Qed.

(** X8: only a truthy token is cached.  A call of [getEditToken] that
    finds no token cached sends the token request; when the call throws
    (the remote is down, answers with an error, or sends no [tokens]
    object) the cache is as before, and when it returns a token that is
    absent or empty that value is what the cache holds: in both cases the
    next call sends the request again. *)
Theorem getEditToken_caches_truthy_only (remote : Remote) w :
  truthy (editToken (client w)) = false ->
  let req :=
    mkRequest GET (apiUrl (client w)) (base_headers (client w))
      [("action", "query"); ("meta", "tokens"); ("format", "json");
       ("formatversion", "2")] in
  let w' := snd (getEditToken remote w) in
  sent w' = (sent w ++ [req])%list
  /\ match fst (getEditToken remote w) with
     | inl _ => editToken (client w') = editToken (client w)
     | inr token => editToken (client w') = token
     end
  /\ (truthy (editToken (client w')) = false ->
      exists req',
        sent (snd (getEditToken remote w')) = (sent w ++ [req; req'])%list).
Proof.
  intros Hc req w'.
  assert (Hs : sent w' = (sent w ++ [req])%list).
  { unfold w'. rewrite getEditToken_sent, Hc. reflexivity. }
  split; [exact Hs | split].
  - unfold w', getEditToken, bind, lift, update, this, ret.
    rewrite Hc. cbn [negb].
    pose proof (makeApiCall_client_fields remote
                  [("action", VStr "query"); ("meta", VStr "tokens")] GET w)
      as (_ & _ & _ & _ & Ht).
    destruct (makeApiCall remote _ GET w) as [[e | resp] w1];
      cbn [fst snd] in *; [exact Ht |].
    destruct (get resp "query") as [e | q]; [exact Ht |].
    destruct (get q "tokens") as [e | t]; [exact Ht |].
    destruct (get t "csrftoken") as [e | c]; [exact Ht | reflexivity].
  - intros Hc'. eexists. rewrite getEditToken_sent, Hc', Hs.
    rewrite <- app_assoc. reflexivity.
Qed.

Lemma getEditToken_caches_truthy_only_witness :
  sent (snd (getEditToken down_remote anonymous)) =
    [mkRequest GET "https://wiki.example/api.php"
       [("User-Agent", "MediaWiki-MCP-Server/1.0")]
       [("action", "query"); ("meta", "tokens"); ("format", "json");
        ("formatversion", "2")]]
  /\ editToken (client (snd (getEditToken down_remote anonymous))) = VUndef.
Proof.
  destruct (@getEditToken_caches_truthy_only down_remote anonymous eq_refl)
    as (Hs & Ht & _).
  split; [exact Hs | exact Ht].
Defined.

Lemma login_outcome (remote : Remote) w :
  match login remote w with
  | (inr true, w') => loggedIn (client w') = true
  | (inr false, w') =>
      w' = w
      /\ (truthy (of_opt (username (client w))) = false
          \/ truthy (of_opt (password (client w))) = false)
  | (inl _, w') => loggedIn (client w') = false
  end.
Proof.
  unfold login. unfold bind at 1. unfold this at 1.
  destruct (truthy (of_opt (username (client w)))) eqn:Eu;
    [| cbn; auto].
  destruct (truthy (of_opt (password (client w)))) eqn:Ep;
    [| cbn; auto].
  cbn [negb orb].
  destruct (loggedIn (client w)) eqn:El; [exact El |].
  unfold bind at 1.
  pose proof (makeApiCall_client_fields remote
                [("action", VStr "query"); ("meta", VStr "tokens");
                 ("type", VStr "login")] GET w) as (_ & _ & _ & Hl1 & _).
  destruct (makeApiCall remote _ GET w) as [[e | tokenResponse] w1];
    cbn [snd] in Hl1; rewrite El in Hl1; [exact Hl1 |].
  unfold bind at 1. unfold lift at 1.
  destruct (get tokenResponse "query") as [e | q]; [exact Hl1 |].
  unfold bind at 1. unfold lift at 1.
  destruct (get q "tokens") as [e | t]; [exact Hl1 |].
  unfold bind at 1. unfold lift at 1.
  destruct (get t "logintoken") as [e | loginToken]; [exact Hl1 |].
  unfold bind at 1.
  match goal with
  | |- context [makeApiCall remote ?p POST w1] =>
      pose proof (makeApiCall_client_fields remote p POST w1)
        as (_ & _ & _ & Hl2 & _);
      destruct (makeApiCall remote p POST w1) as [[e | loginResponse] w2]
  end; cbn [snd] in Hl2; rewrite Hl1 in Hl2; [exact Hl2 |].
  unfold bind, lift, update, ret, throw.
  destruct (get loginResponse "login") as [e | lg]; [exact Hl2 |].
  destruct (get lg "result") as [e | r]; [exact Hl2 |].
  destruct (is_str r "Success"); [reflexivity |].
  destruct (get lg "reason"); exact Hl2.
Qed.

(** X9: what [login()] reports is what it did.  It returns [true] only
    with [loggedIn] set; it returns [false] only when the user name or
    the password is missing, and then it has touched nothing; and when it
    throws, the client is not logged in. *)
Theorem login_result_sound (remote : Remote) w :
  match login remote w with
  | (inr true, w') => loggedIn (client w') = true
  | (inr false, w') =>
      w' = w
      /\ (truthy (of_opt (username (client w))) = false
          \/ truthy (of_opt (password (client w))) = false)
  | (inl _, w') => loggedIn (client w') = false
  end.
Proof. exact (login_outcome remote w). Qed.

(** ** More on the dispatcher *)

Lemma gated_after_login (remote : Remote) tool args w b w1 :
  tool <> "search_pages" -> tool <> "read_page" ->
  login remote w = (inr b, w1) ->
  handle remote (mkCall tool (Some args)) w = dispatch remote tool args w1.
Proof.
  intros Hs Hr Hl.
  rewrite (@handle_gate remote (mkCall tool (Some args)) args w eq_refl Hs Hr).
  now rewrite Hl.
Qed.

Lemma login_idle (remote : Remote) w :
  (truthy (of_opt (username (client w))) = false
   \/ truthy (of_opt (password (client w))) = false)
  \/ loggedIn (client w) = true ->
  exists b, login remote w = (inr b, w).
Proof.
  intros [Hanon | Hl].
  - exists false. now apply login_anonymous.
  - destruct (truthy (of_opt (username (client w)))) eqn:Eu;
      [| exists false; apply login_anonymous; auto].
    destruct (truthy (of_opt (password (client w)))) eqn:Ep;
      [| exists false; apply login_anonymous; auto].
    exists true. now apply login_already.
Qed.

(** X10: the two read tools send one GET and never log in.  Whatever the
    credentials and the login state, a [search_pages] or [read_page] call
    hands [fetch] exactly one request and leaves [loggedIn] and the token
    cache alone.  The [required] argument of the schema is not checked:
    the request carries [srsearch] (or [titles]) when the argument is
    there and has no such parameter when it is not. *)
Theorem read_tools_send_one_request (remote : Remote) args w :
  (let w' := snd (callTool remote (mkCall "search_pages" (Some args)) w) in
   exists req,
     sent w' = (sent w ++ [req])%list
     /\ req_method req = GET
     /\ lookup "list" (req_params req) = Some "search"
     /\ lookup "srsearch" (req_params req) = arg_query args
     /\ loggedIn (client w') = loggedIn (client w)
     /\ editToken (client w') = editToken (client w))
  /\ (let w' := snd (callTool remote (mkCall "read_page" (Some args)) w) in
      exists req,
        sent w' = (sent w ++ [req])%list
        /\ req_method req = GET
        /\ lookup "prop" (req_params req) = Some "revisions"
        /\ lookup "titles" (req_params req) = arg_title args
        /\ lookup "rvslots" (req_params req) = Some "main"
        /\ loggedIn (client w') = loggedIn (client w)
        /\ editToken (client w') = editToken (client w)).
Proof.
  cbv zeta. rewrite !callTool_world.
  change (handle remote (mkCall "search_pages" (Some args)) w)
    with (search_pages remote args w).
  change (handle remote (mkCall "read_page" (Some args)) w)
    with (read_page remote args w).
  rewrite search_pages_world, read_page_world.
  unfold searchPages, getPage. split.
  - match goal with
    | |- context [makeApiCall remote ?p GET w] =>
        destruct (makeApiCall_client_fields remote p GET w)
          as (_ & _ & _ & Hl & Ht)
    end.
    eexists. split; [apply makeApiCall_sent |].
    repeat split; trivial; destruct (arg_query args); reflexivity.
  - match goal with
    | |- context [makeApiCall remote ?p GET w] =>
        destruct (makeApiCall_client_fields remote p GET w)
          as (_ & _ & _ & Hl & Ht)
    end.
    eexists. split; [apply makeApiCall_sent |].
    repeat split; trivial; destruct (arg_title args); reflexivity.
Qed.

(** X11: in the steady state a tool call is one request.  When [login()]
    has nothing to do (no credentials, or logged in already),
    [get_page_history] and [get_categories] send one GET; when an edit
    token is cached as well, [create_page] and [update_page] send one
    POST, which carries that token. *)
Theorem steady_state_one_request (remote : Remote) args w :
  (truthy (of_opt (username (client w))) = false
   \/ truthy (of_opt (password (client w))) = false)
  \/ loggedIn (client w) = true ->
  (forall tool,
      tool = "get_page_history" \/ tool = "get_categories" ->
      exists req,
        sent (snd (callTool remote (mkCall tool (Some args)) w)) =
        (sent w ++ [req])%list
        /\ req_method req = GET)
  /\ (truthy (editToken (client w)) = true ->
      forall tool,
        tool = "create_page" \/ tool = "update_page" ->
        exists req,
          sent (snd (callTool remote (mkCall tool (Some args)) w)) =
          (sent w ++ [req])%list
          /\ req_method req = POST
          /\ lookup "action" (req_params req) = Some "edit"
          /\ lookup "token" (req_params req) =
             Some (ToString (editToken (client w)))).
Proof.
  intros Hidle. destruct (login_idle remote w Hidle) as [b Hl].
  assert (Hgate : forall tool,
             tool <> "search_pages" -> tool <> "read_page" ->
             snd (callTool remote (mkCall tool (Some args)) w) =
             snd (dispatch remote tool args w)).
  { intros tool Hs Hr. rewrite callTool_world.
    now rewrite (gated_after_login remote args w Hs Hr Hl). }
  split.
  - intros tool [-> | ->]; rewrite Hgate by discriminate.
    + change (dispatch remote "get_page_history" args w)
        with (get_page_history remote args w).
      rewrite get_page_history_world. unfold getPageHistory.
      eexists. split; [apply makeApiCall_sent | reflexivity].
    + change (dispatch remote "get_categories" args w)
        with (get_categories remote args w).
      rewrite get_categories_world. unfold getCategories.
      eexists. split; [apply makeApiCall_sent | reflexivity].
  - intros Ht tool [-> | ->]; rewrite Hgate by discriminate.
    + change (dispatch remote "create_page" args w)
        with (create_page remote args w).
      rewrite create_page_world. unfold createPage. unfold bind at 1.
      rewrite (getEditToken_cached remote w Ht).
      eexists. split; [apply makeApiCall_sent |].
      destruct (arg_title args), (arg_content args),
        (editToken (client w)); try discriminate Ht; repeat split.
    + change (dispatch remote "update_page" args w)
        with (update_page remote args w).
      rewrite update_page_world. unfold updatePage. unfold bind at 1.
      rewrite (getEditToken_cached remote w Ht).
      eexists. split; [apply makeApiCall_sent |].
      destruct (arg_title args), (arg_content args),
        (editToken (client w)); try discriminate Ht; repeat split.
Qed.

Lemma steady_state_one_request_witness :
  (exists req,
      sent (snd (callTool sample_remote
                   (mkCall "get_categories" (Some (page_args "Dotta")))
                   logged_in)) = ([] ++ [req])%list
      /\ req_method req = GET)
  /\ (exists req,
         sent (snd (callTool sample_remote
                      (mkCall "update_page"
                         (Some (edit_args "Dotta" "text" None))) stale))
         = ([] ++ [req])%list
         /\ req_method req = POST
         /\ lookup "action" (req_params req) = Some "edit"
         /\ lookup "token" (req_params req) = Some "old").
Proof.
  split.
  - exact (proj1 (@steady_state_one_request sample_remote
                    (page_args "Dotta") logged_in (or_intror eq_refl))
             "get_categories" (or_intror eq_refl)).
  - exact (proj2 (@steady_state_one_request sample_remote
                    (edit_args "Dotta" "text" None) stale
                    (or_introl (or_introl eq_refl)))
             eq_refl "update_page" (or_intror eq_refl)).
Defined.

Lemma map_result_readable (f : Value -> Result Value) (g : Value -> Value)
      items :
  (forall x, readable x -> f x = inr (g x)) ->
  Forall readable items ->
  map_result f items = inr (map g items).
Proof.
  intros Hf H. induction H as [| x rest Hx _ IH]; [reflexivity |].
  cbn [map_result map]. now rewrite (Hf x Hx), IH.
Qed.

Lemma get_readable v key : readable v -> get v key = inr (prop v key).
Proof.
  intros [Hu Hn]. destruct v; try reflexivity; congruence.
Qed.

Lemma search_entry_readable page :
  readable page -> search_entry page = inr (search_item page).
Proof.
  intros H. unfold search_entry. now rewrite !(get_readable _ H).
Qed.

Lemma history_entry_readable rev :
  readable rev -> history_entry rev = inr (history_item rev).
Proof.
  intros H. unfold history_entry. now rewrite !(get_readable _ H).
Qed.

Lemma missing_page_obj props :
  missing_page (VObj props) = inr (page_missing (VObj props)).
Proof. reflexivity. Qed.

(** X12: [get_page_history] does not clamp its limit.  After the login
    gate the one request of the call carries [rvlimit] equal to the
    [limit] argument as it stands (an integer in the safe range), 10 when
    it is absent; values above 50 pass as they are, unlike in
    [search_pages].  [titles] is there when a title was given. *)
Theorem history_limit_unclamped (remote : Remote) args w b w1 :
  login remote w = (inr b, w1) ->
  (forall limit, arg_limit args = Some limit -> safe_integer limit) ->
  exists req,
    sent (snd (callTool remote (mkCall "get_page_history" (Some args)) w)) =
    (sent w1 ++ [req])%list
    /\ req_method req = GET
    /\ lookup "rvlimit" (req_params req) =
       Some (string_of_Z (default 10 (arg_limit args)))
    /\ lookup "titles" (req_params req) = arg_title args.
Proof.
  intros Hl _. rewrite callTool_world.
  rewrite (gated_after_login remote args w
             (tool := "get_page_history") ltac:(discriminate)
             ltac:(discriminate) Hl).
  change (dispatch remote "get_page_history" args w1)
    with (get_page_history remote args w1).
  rewrite get_page_history_world. unfold getPageHistory.
  eexists. split; [apply makeApiCall_sent |].
  cbn [default]. destruct (arg_title args); repeat split.
Qed.

Lemma history_limit_unclamped_witness :
  (exists req,
      sent (snd (callTool sample_remote
                   (mkCall "get_page_history"
                      (Some (mkArguments None (Some 1000) (Some "Dotta")
                               None None))) anonymous)) = ([] ++ [req])%list
      /\ req_method req = GET
      /\ lookup "rvlimit" (req_params req) = Some "1000"
      /\ lookup "titles" (req_params req) = Some "Dotta")
  /\ (exists req,
         sent (snd (callTool sample_remote
                      (mkCall "get_page_history" (Some (page_args "Dotta")))
                      anonymous)) = ([] ++ [req])%list
         /\ req_method req = GET
         /\ lookup "rvlimit" (req_params req) = Some "10"
         /\ lookup "titles" (req_params req) = Some "Dotta").
Proof.
  split.
  - apply (@history_limit_unclamped sample_remote
             (mkArguments None (Some 1000) (Some "Dotta") None None)
             anonymous false anonymous eq_refl).
    intros limit [= <-]. split; reflexivity.
  - apply (@history_limit_unclamped sample_remote (page_args "Dotta")
             anonymous false anonymous eq_refl).
    intros limit H. discriminate H.
Defined.

(** X13: what [search_pages] returns.  When the body (its numbers safe
    integers) has the hits in
    [query.search] (an array without [null]) and a [query.searchinfo],
    the result is the JSON text of [{totalHits, pages}]: one entry
    [{title, snippet, size, wordCount, timestamp}] for each hit, in the
    order of the hits.  When [query.searchinfo] is not there the call
    ends in an error result although the hits were. *)
Theorem search_pages_reshapes (remote : Remote) args w result w1 hits :
  searchPages remote (arg_query args)
    (Some (Z.min (default 10 (arg_limit args)) 50)) w = (inr result, w1) ->
  safe_value result = true ->
  prop (prop result "query") "search" = VArr hits ->
  Forall readable hits ->
  (readable (prop (prop result "query") "searchinfo") ->
   callTool remote (mkCall "search_pages" (Some args)) w =
   (json_result
      (VObj [("totalHits",
              prop (prop (prop result "query") "searchinfo") "totalhits");
             ("pages", VArr (map search_item hits))]), w1))
  /\ (prop (prop result "query") "searchinfo" = VUndef ->
      callTool remote (mkCall "search_pages" (Some args)) w =
      (mkResult
         [TextContent
            "Error: Cannot read properties of undefined (reading 'totalhits')"]
         (Some true), w1)).
Proof.
  intros Hcall _ Hhits Hread.
  assert (Hq : prop result "query" <> VUndef).
  { intros E. rewrite E in Hhits. discriminate Hhits. }
  assert (Hqo : exists qprops, prop result "query" = VObj qprops).
  { apply prop_defined_obj with (key := "search"). rewrite Hhits.
    discriminate. }
  destruct Hqo as [qprops Hqo].
  assert (Hmap : js_map "result.query.search" search_entry (VArr hits) =
                 inr (map search_item hits)).
  { cbn [js_map]. apply map_result_readable; [| exact Hread].
    apply search_entry_readable. }
  split; intros Hsi; unfold callTool;
    change (handle remote (mkCall "search_pages" (Some args)) w)
      with (search_pages remote args w);
    unfold search_pages; unfold bind at 1; rewrite Hcall;
    unfold bind, lift, ret;
    rewrite (get_defined _ _ Hq); rewrite Hqo in *;
    rewrite !get_obj, Hhits, Hmap.
  - now rewrite (get_readable _ Hsi).
  - rewrite Hsi. reflexivity.
Qed.

Lemma search_pages_reshapes_witness :
  let q := String (ascii_of_nat 34) "" in
  let nl := String (ascii_of_nat 10) "" in
  fst (callTool sample_remote
         (mkCall "search_pages" (Some (search_args "dotta" None))) anonymous)
  = mkResult
      [TextContent
         ("{" ++ nl ++ "  " ++ q ++ "totalHits" ++ q ++ ": 1," ++ nl
          ++ "  " ++ q ++ "pages" ++ q ++ ": [" ++ nl ++ "    {" ++ nl
          ++ "      " ++ q ++ "title" ++ q ++ ": " ++ q ++ "Dotta" ++ q
          ++ "," ++ nl ++ "      " ++ q ++ "size" ++ q ++ ": 12" ++ nl
          ++ "    }" ++ nl ++ "  ]" ++ nl ++ "}")]
      None.
Proof.
  refine (f_equal fst
            (proj1 (@search_pages_reshapes sample_remote
                      (search_args "dotta" None) anonymous _ _ _
                      eq_refl eq_refl eq_refl _) _)).
  - repeat constructor; discriminate.
  - split; discriminate.
Defined.

Ltac page_tool tool body Hl Hcall Hpages :=
  unfold callTool;
  rewrite (gated_after_login _ _ _ (tool := tool)
             ltac:(discriminate) ltac:(discriminate) Hl);
  match goal with
  | |- context [dispatch ?r tool ?a ?w] =>
      change (dispatch r tool a w) with (body r a w)
  end;
  unfold body; unfold bind at 1; rewrite Hcall;
  unfold bind at 1; rewrite (first_page_ok _ _ Hpages);
  unfold bind, lift, ret.

(** X14: what [get_page_history] returns.  Let [page] be the first entry
    of [query.pages] in the body (its numbers safe integers).  A page with [missing] set gives
    [{title, exists: false, message}].  Otherwise a page with a
    [revisions] array (without [null]) gives [{title, revisions}] with
    one entry [{id, timestamp, user, comment}] for each revision, in
    order, [id] being the revision's [revid]; and a page without
    [revisions] ends the call in an error result. *)
Theorem page_history_reshapes (remote : Remote) args w b w1 result w2
        page rest :
  login remote w = (inr b, w1) ->
  getPageHistory remote (arg_title args)
    (Some (default 10 (arg_limit args))) w1 = (inr result, w2) ->
  safe_value result = true ->
  prop (prop result "query") "pages" = VArr (page :: rest) ->
  (truthy (prop page "missing") = true ->
   callTool remote (mkCall "get_page_history" (Some args)) w =
   (page_missing page, w2))
  /\ (truthy (prop page "missing") = false ->
      forall revisions,
        prop page "revisions" = VArr revisions ->
        Forall readable revisions ->
        callTool remote (mkCall "get_page_history" (Some args)) w =
        (json_result
           (VObj [("title", prop page "title");
                  ("revisions", VArr (map history_item revisions))]), w2))
  /\ (truthy (prop page "missing") = false ->
      readable page ->
      prop page "revisions" = VUndef ->
      callTool remote (mkCall "get_page_history" (Some args)) w =
      (mkResult
         [TextContent
            "Error: Cannot read properties of undefined (reading 'map')"]
         (Some true), w2)).
Proof.
  intros Hl Hcall _ Hpages. split; [| split].
  - intros Hm. destruct (truthy_prop_obj _ _ Hm) as [pprops ->].
    page_tool "get_page_history" get_page_history Hl Hcall Hpages.
    rewrite get_obj, Hm. reflexivity.
  - intros Hm revisions Hrev Hread.
    assert (Hpage : exists pprops, page = VObj pprops).
    { apply prop_defined_obj with (key := "revisions").
      rewrite Hrev. discriminate. }
    destruct Hpage as [pprops ->].
    page_tool "get_page_history" get_page_history Hl Hcall Hpages.
    rewrite !get_obj, Hm, Hrev. cbn [js_map].
    now rewrite (map_result_readable history_entry history_item
                   history_entry_readable Hread).
  - intros Hm Hpage Hrev.
    page_tool "get_page_history" get_page_history Hl Hcall Hpages.
    rewrite !(get_readable _ Hpage), Hm, Hrev. reflexivity.
Qed.

(** X15: what [get_categories] returns.  A page with [missing] set gives
    [{title, exists: false, message}].  Otherwise a page without
    [categories] gives [{title, categories: []}], and a page with a
    [categories] array (without [null]) gives the [title] of each
    category, in order. *)
Theorem categories_reshapes (remote : Remote) args w b w1 result w2
        page rest :
  login remote w = (inr b, w1) ->
  getCategories remote (arg_title args) w1 = (inr result, w2) ->
  prop (prop result "query") "pages" = VArr (page :: rest) ->
  (truthy (prop page "missing") = true ->
   callTool remote (mkCall "get_categories" (Some args)) w =
   (page_missing page, w2))
  /\ (truthy (prop page "missing") = false ->
      readable page ->
      truthy (prop page "categories") = false ->
      callTool remote (mkCall "get_categories" (Some args)) w =
      (json_result
         (VObj [("title", prop page "title"); ("categories", VArr [])]), w2))
  /\ (truthy (prop page "missing") = false ->
      forall categories,
        prop page "categories" = VArr categories ->
        Forall readable categories ->
        callTool remote (mkCall "get_categories" (Some args)) w =
        (json_result
           (VObj [("title", prop page "title");
                  ("categories",
                   VArr (map (fun cat => prop cat "title") categories))]),
         w2)).
Proof.
  intros Hl Hcall Hpages. split; [| split].
  - intros Hm. destruct (truthy_prop_obj _ _ Hm) as [pprops ->].
    page_tool "get_categories" get_categories Hl Hcall Hpages.
    rewrite get_obj, Hm. reflexivity.
  - intros Hm Hpage Hcat.
    page_tool "get_categories" get_categories Hl Hcall Hpages.
    rewrite !(get_readable _ Hpage), Hm, Hcat. reflexivity.
  - intros Hm categories Hcat Hread.
    assert (Hpage : exists pprops, page = VObj pprops).
    { apply prop_defined_obj with (key := "categories").
      rewrite Hcat. discriminate. }
    destruct Hpage as [pprops ->].
    page_tool "get_categories" get_categories Hl Hcall Hpages.
    rewrite !get_obj, Hm, Hcat. cbn [truthy js_map].
    rewrite (map_result_readable category_entry
               (fun cat => prop cat "title")
               (fun x Hx => get_readable "title" Hx) Hread).
    reflexivity.
Qed.

(** X16: what [create_page] and [update_page] return.  When the body of
    the edit (its numbers safe integers) has an [edit] object the result
    is the JSON text of [{title, result, newRevId, success}], where
    [success] is [true] exactly when [edit.result] is the string
    "Success"; an edit the wiki did not carry out is thus an ordinary
    result with [success: false], not an error result.  A body without
    [edit] ends the call in an error result. *)
Theorem edit_tools_reshape (remote : Remote) args w b w1 result w2 :
  login remote w = (inr b, w1) ->
  safe_value result = true ->
  let shaped edit (success : bool) :=
    mkResult
      [TextContent
         (JSON_stringify
            (VObj [("title", of_opt (arg_title args));
                   ("result", prop (VObj edit) "result");
                   ("newRevId", prop (VObj edit) "newrevid");
                   ("success", VBool success)]))]
      None in
  let failed :=
    mkResult
      [TextContent
         "Error: Cannot read properties of undefined (reading 'result')"]
      (Some true) in
  (createPage remote (arg_title args) (arg_content args)
     (Some (default "Created via MCP" (arg_summary args))) w1
   = (inr result, w2) ->
   (forall edit success,
       prop result "edit" = VObj edit ->
       (success = true <-> prop (VObj edit) "result" = VStr "Success") ->
       callTool remote (mkCall "create_page" (Some args)) w =
       (shaped edit success, w2))
   /\ (readable result -> prop result "edit" = VUndef ->
       callTool remote (mkCall "create_page" (Some args)) w = (failed, w2)))
  /\ (updatePage remote (arg_title args) (arg_content args)
        (Some (default "Updated via MCP" (arg_summary args))) w1
      = (inr result, w2) ->
      (forall edit success,
          prop result "edit" = VObj edit ->
          (success = true <-> prop (VObj edit) "result" = VStr "Success") ->
          callTool remote (mkCall "update_page" (Some args)) w =
          (shaped edit success, w2))
      /\ (readable result -> prop result "edit" = VUndef ->
          callTool remote (mkCall "update_page" (Some args)) w = (failed, w2))).
Proof.
  intros Hl _ shaped failed.
  assert (Hflag : forall edit success,
             (success = true <-> prop (VObj edit) "result" = VStr "Success") ->
             is_str (prop (VObj edit) "result") "Success" = success).
  { intros edit success Hs.
    destruct (is_str (prop (VObj edit) "result") "Success") eqn:E.
    - apply is_str_spec in E. symmetry. now apply Hs.
    - destruct success; [| reflexivity].
      rewrite (proj2 (is_str_spec _ _) (proj1 Hs eq_refl)) in E.
      discriminate E. }
  split; intros Hcall; split.
  - intros edit success He Hs. unfold callTool.
    rewrite (gated_after_login _ _ _ (tool := "create_page")
               ltac:(discriminate) ltac:(discriminate) Hl).
    change (dispatch remote "create_page" args w1)
      with (create_page remote args w1).
    unfold create_page. unfold bind at 1. rewrite Hcall.
    unfold lift, edit_result.
    rewrite get_defined by (rewrite He; discriminate).
    rewrite He. cbn [get]. rewrite (Hflag edit success Hs). reflexivity.
  - intros Hr He. unfold callTool.
    rewrite (gated_after_login _ _ _ (tool := "create_page")
               ltac:(discriminate) ltac:(discriminate) Hl).
    change (dispatch remote "create_page" args w1)
      with (create_page remote args w1).
    unfold create_page. unfold bind at 1. rewrite Hcall.
    unfold lift, edit_result. rewrite (get_readable _ Hr), He. reflexivity.
  - intros edit success He Hs. unfold callTool.
    rewrite (gated_after_login _ _ _ (tool := "update_page")
               ltac:(discriminate) ltac:(discriminate) Hl).
    change (dispatch remote "update_page" args w1)
      with (update_page remote args w1).
    unfold update_page. unfold bind at 1. rewrite Hcall.
    unfold lift, edit_result.
    rewrite get_defined by (rewrite He; discriminate).
    rewrite He. cbn [get]. rewrite (Hflag edit success Hs). reflexivity.
  - intros Hr He. unfold callTool.
    rewrite (gated_after_login _ _ _ (tool := "update_page")
               ltac:(discriminate) ltac:(discriminate) Hl).
    change (dispatch remote "update_page" args w1)
      with (update_page remote args w1).
    unfold update_page. unfold bind at 1. rewrite Hcall.
    unfold lift, edit_result. rewrite (get_readable _ Hr), He. reflexivity.
Qed.

(** X17: [read_page] needs a first revision.  For a page that is not
    missing but has no [revisions] (the wiki flags the title invalid,
    say), or whose [revisions] array is empty, the call ends in an error
    result. *)
Theorem read_page_without_revisions (remote : Remote) args w result w1
        page rest :
  getPage remote (arg_title args) w = (inr result, w1) ->
  prop (prop result "query") "pages" = VArr (page :: rest) ->
  readable page ->
  truthy (prop page "missing") = false ->
  (prop page "revisions" = VUndef ->
   callTool remote (mkCall "read_page" (Some args)) w =
   (mkResult
      [TextContent "Error: Cannot read properties of undefined (reading '0')"]
      (Some true), w1))
  /\ (prop page "revisions" = VArr [] ->
      callTool remote (mkCall "read_page" (Some args)) w =
      (mkResult
         [TextContent
            "Error: Cannot read properties of undefined (reading 'slots')"]
         (Some true), w1)).
Proof.
  intros Hcall Hpages Hpage Hm.
  split; intros Hrev; unfold callTool;
    change (handle remote (mkCall "read_page" (Some args)) w)
      with (read_page remote args w);
    unfold read_page; unfold bind at 1; rewrite Hcall;
    unfold bind at 1; rewrite (first_page_ok _ _ Hpages);
    unfold bind, lift, ret;
    rewrite !(get_readable _ Hpage), Hm, Hrev; reflexivity.
Qed.

Lemma page_history_reshapes_witness :
  let q := String (ascii_of_nat 34) "" in
  let nl := String (ascii_of_nat 10) "" in
  fst (callTool sample_remote
         (mkCall "get_page_history" (Some (page_args "Dotta"))) anonymous)
  = mkResult
      [TextContent
         ("{" ++ nl ++ "  " ++ q ++ "title" ++ q ++ ": " ++ q ++ "Dotta"
          ++ q ++ "," ++ nl ++ "  " ++ q ++ "revisions" ++ q ++ ": ["
          ++ nl ++ "    {" ++ nl ++ "      " ++ q ++ "timestamp" ++ q
          ++ ": " ++ q ++ "2024-01-01T00:00:00Z" ++ q ++ "," ++ nl
          ++ "      " ++ q ++ "user" ++ q ++ ": " ++ q ++ "Alice" ++ q
          ++ "," ++ nl ++ "      " ++ q ++ "comment" ++ q ++ ": " ++ q
          ++ "init" ++ q ++ nl ++ "    }" ++ nl ++ "  ]" ++ nl ++ "}")]
      None
  /\ fst (callTool sample_remote
            (mkCall "get_page_history" (Some (page_args "Nope"))) anonymous)
     = mkResult
         [TextContent
            ("{" ++ nl ++ "  " ++ q ++ "title" ++ q ++ ": " ++ q
             ++ "Nope" ++ q ++ "," ++ nl ++ "  " ++ q ++ "exists" ++ q
             ++ ": false," ++ nl ++ "  " ++ q ++ "message" ++ q ++ ": "
             ++ q ++ "Page does not exist" ++ q ++ nl ++ "}")]
         None.
Proof.
  split.
  - refine (f_equal fst
              (proj1 (proj2 (@page_history_reshapes sample_remote
                               (page_args "Dotta") anonymous false anonymous
                               _ _ _ _ eq_refl eq_refl eq_refl eq_refl))
                 eq_refl _ eq_refl _)).
    repeat constructor; discriminate.
  - exact (f_equal fst
             (proj1 (@page_history_reshapes sample_remote
                       (page_args "Nope") anonymous false anonymous
                       _ _ _ _ eq_refl eq_refl eq_refl eq_refl) eq_refl)).
Defined.

Lemma categories_reshapes_witness :
  let q := String (ascii_of_nat 34) "" in
  let nl := String (ascii_of_nat 10) "" in
  fst (callTool sample_remote
         (mkCall "get_categories" (Some (page_args "Dotta"))) anonymous)
  = mkResult
      [TextContent
         ("{" ++ nl ++ "  " ++ q ++ "title" ++ q ++ ": " ++ q ++ "Dotta"
          ++ q ++ "," ++ nl ++ "  " ++ q ++ "categories" ++ q ++ ": []"
          ++ nl ++ "}")]
      None
  /\ fst (callTool sample_remote
            (mkCall "get_categories" (Some (page_args "Nope"))) anonymous)
     = mkResult
         [TextContent
            ("{" ++ nl ++ "  " ++ q ++ "title" ++ q ++ ": " ++ q
             ++ "Nope" ++ q ++ "," ++ nl ++ "  " ++ q ++ "exists" ++ q
             ++ ": false," ++ nl ++ "  " ++ q ++ "message" ++ q ++ ": "
             ++ q ++ "Page does not exist" ++ q ++ nl ++ "}")]
         None.
Proof.
  split.
  - refine (f_equal fst
              (proj1 (proj2 (@categories_reshapes sample_remote
                               (page_args "Dotta") anonymous false anonymous
                               _ _ _ _ eq_refl eq_refl eq_refl))
                 eq_refl _ eq_refl)).
    split; discriminate.
  - exact (f_equal fst
             (proj1 (@categories_reshapes sample_remote
                       (page_args "Nope") anonymous false anonymous
                       _ _ _ _ eq_refl eq_refl eq_refl) eq_refl)).
Defined.

Lemma edit_tools_reshape_witness :
  let q := String (ascii_of_nat 34) "" in
  let nl := String (ascii_of_nat 10) "" in
  fst (callTool sample_remote
         (mkCall "create_page" (Some (edit_args "Dotta" "text" None)))
         anonymous)
  = mkResult
      [TextContent
         ("{" ++ nl ++ "  " ++ q ++ "title" ++ q ++ ": " ++ q ++ "Dotta"
          ++ q ++ "," ++ nl ++ "  " ++ q ++ "result" ++ q ++ ": " ++ q
          ++ "Success" ++ q ++ "," ++ nl ++ "  " ++ q ++ "newRevId" ++ q
          ++ ": 42," ++ nl ++ "  " ++ q ++ "success" ++ q ++ ": true"
          ++ nl ++ "}")]
      None
  /\ fst (callTool refusing_remote
            (mkCall "update_page" (Some (edit_args "Dotta" "text" None)))
            anonymous)
     = mkResult
         [TextContent
            ("{" ++ nl ++ "  " ++ q ++ "title" ++ q ++ ": " ++ q
             ++ "Dotta" ++ q ++ "," ++ nl ++ "  " ++ q ++ "result" ++ q
             ++ ": " ++ q ++ "Failure" ++ q ++ "," ++ nl ++ "  " ++ q
             ++ "success" ++ q ++ ": false" ++ nl ++ "}")]
         None.
Proof.
  split.
  - refine (f_equal fst
              (proj1 (proj1 (@edit_tools_reshape sample_remote
                               (edit_args "Dotta" "text" None)
                               anonymous false anonymous
                               (VObj [("edit",
                                       VObj [("result", VStr "Success");
                                             ("newrevid", VNum 42)])])
                               _ eq_refl eq_refl)
                        eq_refl)
                 _ true eq_refl _)).
    split; reflexivity.
  - refine (f_equal fst
              (proj1 (proj2 (@edit_tools_reshape refusing_remote
                               (edit_args "Dotta" "text" None)
                               anonymous false anonymous
                               (VObj [("edit",
                                       VObj [("result", VStr "Failure")])])
                               _ eq_refl eq_refl)
                        eq_refl)
                 _ false eq_refl _)).
    split; discriminate.
Defined.

Lemma read_page_without_revisions_witness :
  fst (callTool invalid_title_remote
         (mkCall "read_page" (Some (page_args "<"))) anonymous)
  = mkResult
      [TextContent "Error: Cannot read properties of undefined (reading '0')"]
      (Some true).
Proof.
  refine (f_equal fst
            (proj1 (@read_page_without_revisions invalid_title_remote
                      (page_args "<") anonymous _ _ _ _
                      eq_refl eq_refl _ eq_refl) eq_refl)).
  split; discriminate.
Defined.

(** ** The process bootstrap *)

Lemma truthy_str_iff s : truthy (VStr s) = true <-> s <> "".
Proof.
  cbn. destruct (String.eqb_spec s ""); cbn; split; congruence.
Qed.

Lemma truthy_opt_iff o :
  truthy (of_opt o) = true <-> exists s, o = Some s /\ s <> "".
Proof.
  destruct o as [s |]; cbn [of_opt].
  - rewrite truthy_str_iff. split; [eauto |].
    intros (s' & E & H). congruence.
  - cbn. split; [discriminate |]. intros (s & E & _). discriminate.
Qed.

Lemma or_else_truthy a b :
  truthy (of_opt (or_else a b)) = truthy (of_opt a) || truthy (of_opt b).
Proof.
  unfold or_else. destruct (truthy (of_opt a)) eqn:E; cbn; [exact E | trivial].
Qed.

(** X18: how [index.ts] goes on once [parseArgs] has returned the flag
    values.  The top level stops at its URL check, with status 1 and the
    line "MediaWiki API URL is required. ..." on stderr, exactly when
    neither [--api-url] nor [MEDIAWIKI_API_URL] gives a non-empty URL.
    Otherwise it builds a fresh client (not logged in, no token, no
    cookies), a non-empty flag taking precedence over the variable; and
    when no user name or no password is configured, the [login()] at
    startup sends nothing. *)
Theorem start_resolves_settings (values : Values) (env : Env) :
  (start values env = Exit 1
     "MediaWiki API URL is required. Set it via --api-url or MEDIAWIKI_API_URL"
   <-> truthy (of_opt (flag_api_url values)) = false
       /\ truthy (of_opt (env "MEDIAWIKI_API_URL")) = false)
  /\ (forall c,
         start values env = Started c ->
         apiUrl c <> ""
         /\ (forall url, flag_api_url values = Some url -> url <> "" ->
                         apiUrl c = url)
         /\ (forall user, flag_username values = Some user -> user <> "" ->
                          username c = Some user)
         /\ (truthy (of_opt (flag_username values)) = false ->
             username c = env "MEDIAWIKI_USERNAME")
         /\ loggedIn c = false /\ editToken c = VUndef /\ cookies c = []
         /\ (forall remote,
                truthy (of_opt (username c)) = false
                \/ truthy (of_opt (password c)) = false ->
                startup remote c = mkWorld c [])).
Proof.
  unfold start.
  pose proof (or_else_truthy (flag_api_url values) (env "MEDIAWIKI_API_URL"))
    as Hurl.
  destruct (or_else (flag_api_url values) (env "MEDIAWIKI_API_URL"))
    as [url |] eqn:E; cbn [of_opt] in Hurl.
  - destruct (truthy (VStr url)) eqn:Et.
    + symmetry in Hurl. apply orb_true_iff in Hurl. split.
      * split; [intros H; discriminate H |].
        intros [H1 H2]. destruct Hurl; congruence.
      * intros c [= <-]. cbn [new_client apiUrl username loggedIn editToken
                                cookies].
        split; [now apply truthy_str_iff |].
        split.
        { intros u Hf Hu. unfold or_else in E. rewrite Hf in E.
          cbn [of_opt] in E. rewrite (proj2 (truthy_str_iff u) Hu) in E.
          congruence. }
        split.
        { intros u Hf Hu. unfold or_else. rewrite Hf. cbn [of_opt].
          now rewrite (proj2 (truthy_str_iff u) Hu). }
        split.
        { intros Hf. unfold or_else. now rewrite Hf. }
        repeat split.
        intros remote Hanon. unfold startup.
        now rewrite login_anonymous.
    + symmetry in Hurl. apply orb_false_iff in Hurl. split.
      * split; [intros _; exact Hurl | reflexivity].
      * intros c H. discriminate H.
  - symmetry in Hurl. apply orb_false_iff in Hurl. split.
    + split; [intros _; exact Hurl | reflexivity].
    + intros c H. discriminate H.
Qed.

Lemma getRequiredEnv_spec env name :
  match env name with
  | Some value =>
      if (value =? "")%string
      then Server.getRequiredEnv env name =
           inl (Error ("Required environment variable " ++ name
                       ++ " is not set"))
      else Server.getRequiredEnv env name = inr value
  | None =>
      Server.getRequiredEnv env name =
      inl (Error ("Required environment variable " ++ name ++ " is not set"))
  end.
Proof.
  unfold Server.getRequiredEnv. destruct (env name) as [v |]; [| reflexivity].
  cbn [truthy]. destruct (v =? "")%string; reflexivity.
Qed.

Lemma config_cases (env : Env) :
  match find (fun name => negb (truthy (of_opt (env name))))
             ["MEDIAWIKI_API_URL"; "MEDIAWIKI_USERNAME"; "MEDIAWIKI_PASSWORD"]
  with
  | Some name =>
      Server.config env =
      inl (Error ("Required environment variable " ++ name ++ " is not set"))
  | None =>
      exists c,
        Server.config env = inr c
        /\ env "MEDIAWIKI_API_URL" = Some (Server.apiUrl c)
        /\ env "MEDIAWIKI_USERNAME" = Some (Server.username c)
        /\ env "MEDIAWIKI_PASSWORD" = Some (Server.password c)
  end.
Proof.
  unfold Server.config. cbn [find].
  pose proof (getRequiredEnv_spec env "MEDIAWIKI_API_URL") as H1.
  pose proof (getRequiredEnv_spec env "MEDIAWIKI_USERNAME") as H2.
  pose proof (getRequiredEnv_spec env "MEDIAWIKI_PASSWORD") as H3.
  destruct (env "MEDIAWIKI_API_URL") as [u |]; cbn [of_opt truthy negb];
    [| now rewrite H1].
  destruct (u =? "")%string; cbn [negb]; rewrite H1; [reflexivity |].
  destruct (env "MEDIAWIKI_USERNAME") as [n |]; cbn [of_opt truthy negb];
    [| now rewrite H2].
  destruct (n =? "")%string; cbn [negb]; rewrite H2; [reflexivity |].
  destruct (env "MEDIAWIKI_PASSWORD") as [p |]; cbn [of_opt truthy negb];
    [| now rewrite H3].
  destruct (p =? "")%string; cbn [negb]; rewrite H3; [reflexivity |].
  eexists. split; [reflexivity |]. cbn. auto.
Qed.

(** X19: the configuration needs all three wiki variables.  [config]
    throws "Required environment variable <name> is not set" for the
    first of [MEDIAWIKI_API_URL], [MEDIAWIKI_USERNAME],
    [MEDIAWIKI_PASSWORD] that is unset or empty, and builds a
    configuration holding their values only when none is. *)
Theorem config_requires_wiki_variables (env : Env) :
  match find (fun name => negb (truthy (of_opt (env name))))
             ["MEDIAWIKI_API_URL"; "MEDIAWIKI_USERNAME"; "MEDIAWIKI_PASSWORD"]
  with
  | Some name =>
      Server.config env =
      inl (Error ("Required environment variable " ++ name ++ " is not set"))
  | None =>
      exists c,
        Server.config env = inr c
        /\ env "MEDIAWIKI_API_URL" = Some (Server.apiUrl c)
        /\ env "MEDIAWIKI_USERNAME" = Some (Server.username c)
        /\ env "MEDIAWIKI_PASSWORD" = Some (Server.password c)
  end.
Proof. exact (config_cases env). Qed.

Lemma getOptionalEnv_unset {T} env name (d : T) f :
  truthy (of_opt (env name)) = false ->
  Server.getOptionalEnv env name d f = d.
Proof.
  unfold Server.getOptionalEnv. destruct (env name) as [v |]; [| reflexivity].
  cbn [of_opt]. now intros ->.
Qed.

(** X20: the defaults of the optional settings.  A configuration built
    from an environment in which the optional variables are unset or
    empty has port 3000, log level "info", token expiry 3600, 3 retry
    attempts, a rate limit of 100 requests in 900 seconds, caching
    enabled with a TTL of 300, allowed origins "*" and SSL disabled. *)
Theorem config_defaults (env : Env) c :
  Server.config env = inr c ->
  (forall name,
      In name ["PORT"; "LOG_LEVEL"; "AUTH_TOKEN_EXPIRY"; "RETRY_ATTEMPTS";
               "RATE_LIMIT_WINDOW"; "RATE_LIMIT_MAX_REQUESTS"; "CACHE_ENABLED";
               "CACHE_TTL"; "ALLOWED_ORIGINS"; "SSL_ENABLED"] ->
      truthy (of_opt (env name)) = false) ->
  Server.port c = Server.Lit 3000
  /\ Server.logLevel c = "info"
  /\ Server.authTokenExpiry c = Server.Lit 3600
  /\ Server.retryAttempts c = Server.Lit 3
  /\ Server.rateLimitWindow c = Server.Lit 900
  /\ Server.rateLimitMaxRequests c = Server.Lit 100
  /\ Server.cacheEnabled c = true
  /\ Server.cacheTTL c = Server.Lit 300
  /\ Server.allowedOrigins c = "*"
  /\ Server.sslEnabled c = false.
Proof.
  intros Hc Hunset. unfold Server.config in Hc.
  destruct (Server.getRequiredEnv env "MEDIAWIKI_API_URL"); [discriminate |].
  destruct (Server.getRequiredEnv env "MEDIAWIKI_USERNAME"); [discriminate |].
  destruct (Server.getRequiredEnv env "MEDIAWIKI_PASSWORD"); [discriminate |].
  injection Hc as <-. cbn.
  repeat split; apply getOptionalEnv_unset; apply Hunset; cbn; tauto.
Qed.

Lemma config_defaults_witness :
  exists c,
    Server.config minimal_env = inr c
    /\ Server.port c = Server.Lit 3000
    /\ Server.cacheEnabled c = true
    /\ Server.sslEnabled c = false.
Proof.
  eexists. split; [reflexivity |].
  destruct (@config_defaults minimal_env _ eq_refl)
    as (Hp & _ & _ & _ & _ & _ & Hc & _ & _ & Hs).
  - intros name H. cbn in H.
    repeat (destruct H as [<- | H]; [reflexivity |]). destruct H.
  - auto.
Defined.



(** X22: the SSL check.  With SSL disabled nothing is checked.  With SSL
    enabled the check passes exactly when both paths are set, non-empty
    and accessible; and whenever it passes, the listener is HTTPS exactly
    when SSL is enabled. *)
Theorem ssl_check (access : string -> bool) (c : Server.Config) :
  (Server.validate_ssl access c = inr tt <->
   Server.sslEnabled c = false
   \/ exists key cert,
       Server.sslKeyPath c = Some key /\ key <> ""
       /\ Server.sslCertPath c = Some cert /\ cert <> ""
       /\ access key = true /\ access cert = true)
  /\ (Server.validate_ssl access c = inr tt ->
      Server.uses_https c = Server.sslEnabled c).
Proof.
  unfold Server.validate_ssl, Server.uses_https.
  destruct (Server.sslEnabled c);
    [| split; [split; auto | reflexivity]].
  destruct (Server.sslKeyPath c) as [key |], (Server.sslCertPath c) as [cert |];
    cbn [of_opt andb truthy];
    repeat match goal with
           | |- context [(?s =? "")%string] =>
               destruct (String.eqb_spec s "")
           | |- context [access ?p] =>
               let E := fresh "E" in destruct (access p) eqn:E
           end;
    cbn [negb orb andb];
    (split;
     [ split;
       [ intros H; try discriminate H; right; eauto 10
       | intros [H | (k & c' & Hk & Hk' & Hc & Hc' & Ha & Ha')];
         [ discriminate H | try reflexivity; exfalso; congruence ] ]
     | intros H; try discriminate H; reflexivity ]).
Qed.

(** X23: the variant never runs anonymously.  Whatever the flags, it
    throws at load time unless the environment sets all three wiki
    variables; and when it comes up it has built a client with a
    non-empty URL, user name and password: the branch that exits for a
    missing URL is not reached, and [login()] of that client never
    returns [false]. *)
Theorem server_variant_needs_credentials (access : string -> bool)
        (argv : Server.Argv) (env : Env) :
  (forall name,
      In name ["MEDIAWIKI_API_URL"; "MEDIAWIKI_USERNAME"; "MEDIAWIKI_PASSWORD"] ->
      truthy (of_opt (env name)) = false ->
      exists e, Server.start access argv env = inl e)
  /\ (forall boot,
         Server.start access argv env = inr boot ->
         exists c,
           boot = Started c
           /\ apiUrl c <> ""
           /\ truthy (of_opt (username c)) = true
           /\ truthy (of_opt (password c)) = true
           /\ forall remote w', login remote (mkWorld c []) <> (inr false, w')).
Proof.
  pose proof (config_cases env) as Hcfg.
  unfold Server.start. cbn [find] in Hcfg. split.
  - intros name Hin Hunset. cbn in Hin.
    destruct (truthy (of_opt (env "MEDIAWIKI_API_URL"))) eqn:E1;
      cbn [negb] in Hcfg; [| rewrite Hcfg; eauto].
    destruct (truthy (of_opt (env "MEDIAWIKI_USERNAME"))) eqn:E2;
      cbn [negb] in Hcfg; [| rewrite Hcfg; eauto].
    destruct (truthy (of_opt (env "MEDIAWIKI_PASSWORD"))) eqn:E3;
      cbn [negb] in Hcfg; [| rewrite Hcfg; eauto].
    destruct Hin as [<- | [<- | [<- | []]]]; congruence.
  - intros boot Hb.
    destruct (truthy (of_opt (env "MEDIAWIKI_API_URL"))) eqn:E1;
      cbn [negb] in Hcfg; [| rewrite Hcfg in Hb; discriminate Hb].
    destruct (truthy (of_opt (env "MEDIAWIKI_USERNAME"))) eqn:E2;
      cbn [negb] in Hcfg; [| rewrite Hcfg in Hb; discriminate Hb].
    destruct (truthy (of_opt (env "MEDIAWIKI_PASSWORD"))) eqn:E3;
      cbn [negb] in Hcfg; [| rewrite Hcfg in Hb; discriminate Hb].
    destruct Hcfg as (c & Hc & _). rewrite Hc in Hb.
    destruct (Server.validate_ssl access c); [discriminate Hb |].
    pose proof (or_else_truthy (Some (Server.argv_apiUrl argv))
                  (env "MEDIAWIKI_API_URL")) as Hurl.
    rewrite E1, orb_true_r in Hurl.
    destruct (or_else (Some (Server.argv_apiUrl argv))
                (env "MEDIAWIKI_API_URL")) as [url |];
      [| discriminate Hurl].
    cbn [of_opt] in Hurl. rewrite Hurl in Hb. injection Hb as <-.
    eexists. split; [reflexivity |].
    cbn [new_client apiUrl username password].
    assert (Hu : truthy (of_opt (or_else (Server.argv_username argv)
                                   (env "MEDIAWIKI_USERNAME"))) = true)
      by (rewrite or_else_truthy, E2; apply orb_true_r).
    assert (Hp : truthy (of_opt (or_else (Server.argv_password argv)
                                   (env "MEDIAWIKI_PASSWORD"))) = true)
      by (rewrite or_else_truthy, E3; apply orb_true_r).
    split; [now apply truthy_str_iff |].
    split; [exact Hu |]. split; [exact Hp |].
    intros remote w' Hlogin.
    pose proof (login_outcome remote
                  (mkWorld (new_client url
                              (or_else (Server.argv_username argv)
                                 (env "MEDIAWIKI_USERNAME"))
                              (or_else (Server.argv_password argv)
                                 (env "MEDIAWIKI_PASSWORD"))) [])) as Hs.
    rewrite Hlogin in Hs. cbn [client username password new_client] in Hs.
    destruct Hs as [_ [H | H]]; congruence.
Qed.
